(** * Phil's simple RSI swing strategy: a shallow embedding of
      [phils_swing_strategy.py] and the properties of its weekly trade
      simulation.

    The script is a straight-line pandas program.  It is embedded here as
    it is written: a table ([DataFrame]) of rows indexed by a date, whose
    cells are read by label and may be missing ([KeyError]); floats that
    may be undefined (NaN); module-level locals threaded through the
    weekly loop; a pseudo-random generator threaded through every draw;
    and exceptions as the left summand of a sum type.

    Numbers.  Prices are exact rationals ([Q]); NaN is [None].  IEEE
    rounding, infinities and signed zeros are outside the model: a
    division by zero, which numpy answers with an infinity or NaN and a
    warning, is collapsed to NaN. *)

From Stdlib Require Import ZArith QArith Lia Lqa Sorted.
From stdpp Require Import base option gmap strings list.

Close Scope Q_scope.
Open Scope Z_scope.

(** ** Floats with NaN *)

Module Float.

Definition t := option Q.

Definition nan : t := None.
Definition of_Q (x : Q) : t := Some x.
Definition of_Z (n : Z) : t := Some (inject_Z n).

Definition lift2 (f : Q -> Q -> Q) (x y : t) : t :=
  match x, y with
  | Some a, Some b => Some (f a b)
  | _, _ => None
  end.

Definition add := lift2 Qplus.
Definition sub := lift2 Qminus.
Definition mul := lift2 Qmult.

Definition div (x y : t) : t :=
  match x, y with
  | Some a, Some b => if Qeq_bool b 0 then None else Some (a / b)%Q
  | _, _ => None
  end.

(** Every ordered comparison with NaN is false. *)
Definition cmp (f : Q -> Q -> bool) (x y : t) : bool :=
  match x, y with
  | Some a, Some b => f a b
  | _, _ => false
  end.

Definition ge := cmp (fun a b => Qle_bool b a).
Definition le := cmp Qle_bool.
Definition gt := cmp (fun a b => negb (Qle_bool a b)).

(** Equality of values, up to the representation of a rational. *)
Definition eqv (x y : t) : Prop :=
  match x, y with
  | Some a, Some b => (a == b)%Q
  | None, None => True
  | _, _ => False
  end.

Definition is_nan (x : t) : bool :=
  match x with None => true | Some _ => false end.

End Float.

Infix "+#" := Float.add (at level 50, left associativity).
Infix "-#" := Float.sub (at level 50, left associativity).
Infix "*#" := Float.mul (at level 40, left associativity).
Infix "/#" := Float.div (at level 40, left associativity).
Infix ">=#" := Float.ge (at level 70, no associativity).
Infix "<=#" := Float.le (at level 70, no associativity).
Infix ">#" := Float.gt (at level 70, no associativity).
Abbreviation fl := Float.of_Q.

(** ** Dates

    A daily bar's index label is a midnight timestamp: the number of days
    since 1970-01-01, a Thursday. *)

Definition Timestamp := Z.

(** [datetime.weekday]: Monday is 0, Sunday is 6. *)
Definition weekday (d : Timestamp) : Z := (d + 3) mod 7.

(** [index.to_period('W').start_time]: weekly periods end on Sunday, so a
    period starts on the Monday on or before the date. *)
Definition week_start (d : Timestamp) : Timestamp := d - weekday d.

(** [strftime('%A')]. *)
Definition day_name (d : Timestamp) : string :=
  match weekday d with
  | 0 => "Monday" | 1 => "Tuesday" | 2 => "Wednesday" | 3 => "Thursday"
  | 4 => "Friday" | 5 => "Saturday" | _ => "Sunday"
  end.

(** [class Dow] *)
Module Dow.
Definition MON : Z := 0.
Definition TUE : Z := 1.
Definition WED : Z := 2.
Definition THU : Z := 3.
Definition FRI : Z := 4.
Definition SAT : Z := 5.
Definition SUN : Z := 6.
End Dow.

(** ** Exceptions *)

Inductive Exn : Type :=
| KeyError (label : string)
| TypeError
| ValueError
| IndexError.

Definition Res (A : Type) : Type := Exn + A.

Definition ok {A} (x : A) : Res A := inr x.
Definition raise {A} (e : Exn) : Res A := inl e.

Definition bindR {A B} (m : Res A) (k : A -> Res B) : Res B :=
  match m with
  | inl e => inl e
  | inr x => k x
  end.

Declare Scope res_scope.
Delimit Scope res_scope with res.
Notation "'let*' x := m 'in' k" := (bindR m (fun x => k))
  (at level 10, x pattern, m at level 100, k at level 200, only parsing)
  : res_scope.

Fixpoint mapR {A B} (f : A -> Res B) (l : list A) : Res (list B) :=
  match l with
  | [] => ok []
  | x :: l' => (let* y := f x in let* ys := mapR f l' in ok (y :: ys))%res
  end.

(** ** The pseudo-random generator

    [random.random()] returns the next number of the generator's sequence;
    the sequence is the simulation's input.  [random.uniform(a, b)] is
    [a + (b - a) * random()]. *)

Record Rng : Type := { draws : nat -> Q; pos : nat }.

Definition next_draw (g : Rng) : Q := draws g (pos g).
Definition advance (g : Rng) : Rng := {| draws := draws g; pos := S (pos g) |}.

(** Computations that draw random numbers and may raise. *)
Definition M (A : Type) : Type := Rng -> Res (A * Rng).

Definition ret {A} (x : A) : M A := fun g => ok (x, g).
Definition throw {A} (e : Exn) : M A := fun _ => raise e.
Definition bind {A B} (m : M A) (k : A -> M B) : M B :=
  fun g => match m g with
           | inl e => inl e
           | inr (x, g') => k x g'
           end.
Definition lift {A} (r : Res A) : M A :=
  fun g => match r with inl e => inl e | inr x => ok (x, g) end.

Declare Scope sim_scope.
Delimit Scope sim_scope with sim.
Notation "'let*' x := m 'in' k" := (bind m (fun x => k))
  (at level 10, x pattern, m at level 100, k at level 200, only parsing)
  : sim_scope.

Definition random : M Q := fun g => ok (next_draw g, advance g).

Definition uniform (a b : Q) : M Q :=
  (let* u := random in ret (a + (b - a) * u)%Q)%sim.

(** ** Tables *)

Inductive Cell : Type :=
| CFloat (x : Float.t)
| CBool (b : bool)
| CInt (n : Z)
| CStr (s : string)
| CTime (d : Timestamp).

(** A row as [iterrows] yields it: cells by column label. *)
Abbreviation Series := (gmap string Cell).

Record DataFrame : Type := {
  columns : list string;
  rows : list (Timestamp * Series)
}.

(** [row[label]] *)
Definition getcell (row : Series) (label : string) : Res Cell :=
  match row !! label with
  | Some c => ok c
  | None => raise (KeyError label)
  end.

(** A cell used as a number: booleans and integers are numbers in Python,
    strings and timestamps are not. *)
Definition cell_float (c : Cell) : Res Float.t :=
  match c with
  | CFloat x => ok x
  | CBool b => ok (Float.of_Z (if b then 1 else 0))
  | CInt n => ok (Float.of_Z n)
  | CStr _ | CTime _ => raise TypeError
  end.

(** Truth value of a cell: NaN is a non-zero float, hence true. *)
Definition truthy (c : Cell) : bool :=
  match c with
  | CFloat (Some x) => negb (Qeq_bool x 0)
  | CFloat None => true
  | CBool b => b
  | CInt n => negb (n =? 0)
  | CStr s => negb (String.eqb s "")
  | CTime _ => true
  end.

Definition getfloat (row : Series) (label : string) : Res Float.t :=
  (let* c := getcell row label in cell_float c)%res.

(** [df[label]]: the column's cells, top to bottom. *)
Definition getitem (df : DataFrame) (label : string) : Res (list Cell) :=
  if bool_decide (label ∈ columns df)
  then mapR (fun r => getcell r.2 label) (rows df)
  else raise (KeyError label).

Definition getitem_float (df : DataFrame) (label : string) : Res (list Float.t) :=
  (let* cs := getitem df label in mapR cell_float cs)%res.

(** [df[label] = values], in place: the column is added if it is new and
    overwritten otherwise.  The values come from series over the table's
    own index, so they are aligned by position; a row without a value gets
    NaN. *)
Definition setitem (df : DataFrame) (label : string) (values : list Cell)
  : DataFrame :=
  {| columns := if bool_decide (label ∈ columns df)
                then columns df else columns df ++ [label];
     rows := imap (fun i r => (r.1, <[label := default (CFloat Float.nan) (values !! i)]> r.2))
                  (rows df) |}.

(** [series.shift(n)]: values move down by [n] rows (up for a negative
    [n]); the vacated rows are NaN. *)
Definition shift (n : Z) (xs : list Float.t) : list Float.t :=
  if 0 <=? n
  then take (length xs) (replicate (Z.to_nat n) Float.nan ++ xs)
  else drop (Z.to_nat (- n)) xs ++ replicate (Nat.min (Z.to_nat (- n)) (length xs)) Float.nan.

(** [a > b], element by element. *)
Definition series_gt (xs ys : list Float.t) : list bool :=
  zip_with Float.gt xs ys.

(** [df.sort_index(inplace=True)]: rows in ascending order of their label.
    Labels are dates, which the provider gives once each; rows with equal
    labels keep their order. *)
Fixpoint insert_row (r : Timestamp * Series) (l : list (Timestamp * Series))
  : list (Timestamp * Series) :=
  match l with
  | [] => [r]
  | r' :: l' => if r.1 <=? r'.1 then r :: r' :: l' else r' :: insert_row r l'
  end.

Definition sort_rows (l : list (Timestamp * Series)) : list (Timestamp * Series) :=
  foldr insert_row [] l.

Definition sort_index (df : DataFrame) : DataFrame :=
  {| columns := columns df; rows := sort_rows (rows df) |}.

(** [weekly_data.index[-1]] and [weekly_data.iloc[-1]]. *)
Definition last_row (df : DataFrame) : Res (Timestamp * Series) :=
  match last (rows df) with
  | Some r => ok r
  | None => raise IndexError
  end.

(** [df.groupby(label)], iterated: one table per distinct key, keys in
    ascending order, each with the rows of that key in their order.  The
    script groups by the week start, a timestamp. *)
Definition time_key (row : Series) (label : string) : Res Timestamp :=
  (let* c := getcell row label in
   match c with
   | CTime d => ok d
   | _ => raise TypeError
   end)%res.

Fixpoint insert_key (k : Timestamp) (l : list Timestamp) : list Timestamp :=
  match l with
  | [] => [k]
  | k' :: l' =>
      if k <? k' then k :: k' :: l'
      else if k =? k' then k' :: l'
      else k' :: insert_key k l'
  end.

Definition sorted_keys (ks : list Timestamp) : list Timestamp :=
  foldr insert_key [] ks.

Definition group_of (df : DataFrame)
    (keyed : list (Timestamp * (Timestamp * Series))) (k : Timestamp)
  : Timestamp * DataFrame :=
  (k, {| columns := columns df;
         rows := snd <$> filter (fun kr => kr.1 = k) keyed |}).

Definition groupby (df : DataFrame) (label : string)
  : Res (list (Timestamp * DataFrame)) :=
  if bool_decide (label ∈ columns df)
  then (let* keyed :=
          mapR (fun r => let* k := time_key r.2 label in ok (k, r)) (rows df) in
        ok (group_of df keyed <$> sorted_keys (fst <$> keyed)))%res
  else raise (KeyError label).

(** ** Parameters (the module-level constants, lines 103-125) *)

Record Params : Type := {
  open_limit_offset : Q;
  take_profit_percentage : Q;
  take_profit_increase : Q;
  open_max_slippage : Q;
  close_max_slippage : Q;
  rsi_low : Q;
  rsi_high : Q;
  use_sma : bool;
  use_hma : bool;
  use_rsi_low : bool;
  use_rsi_hi : bool;
  use_rsi_slope : bool;
  slope_lookback : Z;
  rsi_period : Z;
  sma_period : Z;
  hma_period : Z;
  allowed_days : list Z
}.

(** The values the script is shipped with. *)
Definition script_params : Params := {|
  open_limit_offset := 0.01;
  take_profit_percentage := 0.07;
  take_profit_increase := 0.01;
  open_max_slippage := 0.01;
  close_max_slippage := 0.01;
  rsi_low := 51;
  rsi_high := 73;
  use_sma := false;
  use_hma := false;
  use_rsi_low := true;
  use_rsi_hi := true;
  use_rsi_slope := true;
  slope_lookback := 1;
  rsi_period := 13;
  sma_period := 200;
  hma_period := 19;
  allowed_days := [Dow.MON; Dow.WED; Dow.THU; Dow.FRI]
|}.

(** ** Indicators (lines 127-132)

    [pandas_ta] is an external library: its three functions are taken as
    they are, from a series of closes and a length to a series over the
    same index. *)

Record Indicators : Type := {
  ta_sma : list Float.t -> Z -> list Float.t;
  ta_hma : list Float.t -> Z -> list Float.t;
  ta_rsi : list Float.t -> Z -> list Float.t
}.

Definition annotate (ta : Indicators) (p : Params) (data : DataFrame)
  : Res DataFrame :=
  (let* close := getitem_float data "Close" in
   let data := setitem data "SMA" (CFloat <$> ta_sma ta close (sma_period p)) in
   let* close := getitem_float data "Close" in
   let data := setitem data "HMA" (CFloat <$> ta_hma ta close (hma_period p)) in
   let* close := getitem_float data "Close" in
   let data := setitem data "RSI" (CFloat <$> ta_rsi ta close (rsi_period p)) in
   let* rsi := getitem_float data "RSI" in
   let data := setitem data "Previous_RSI" (CFloat <$> shift (slope_lookback p) rsi) in
   let* rsi := getitem_float data "RSI" in
   let* previous_rsi := getitem_float data "Previous_RSI" in
   ok (setitem data "UpSlope" (CBool <$> series_gt rsi previous_rsi)))%res.

(** Line 145: [data['Week Start'] = data.index.to_period('W').start_time]. *)
Definition add_week_start (data : DataFrame) : DataFrame :=
  setitem data "Week Start" ((fun r => CTime (week_start r.1)) <$> rows data).

(** ** The weekly simulation (lines 153-232) *)

(** The variables reset at the top of each week (lines 156-162).  [None]
    is Python's [None]. *)
Record WeekVars : Type := {
  trade_entry_date : option Timestamp;
  trade_exit_date : option Timestamp;
  trade_entry_price : option Float.t;
  trade_exit_price : option Float.t;
  trade_entry_rsi : option Cell;
  increased_take_profit : bool;
  trade_made : bool
}.

Definition week_init : WeekVars := {|
  trade_entry_date := None;
  trade_exit_date := None;
  trade_entry_price := None;
  trade_exit_price := None;
  trade_entry_rsi := None;
  increased_take_profit := false;
  trade_made := false
|}.

(** One entry of [trades] (lines 221-232). *)
Record Trade : Type := {
  Entry_Date : Timestamp;
  Exit_Date : Timestamp;
  Entry_Price : Float.t;
  Exit_Price : Float.t;
  Profit : Float.t;
  Days_in_Trade : Z;
  Entry_Day : string;
  Exit_Day : string;
  Entry_RSI : Cell;
  TP_Boost : bool
}.

(** Arithmetic on a variable that still holds [None] is a [TypeError]. *)
Definition need {A} (o : option A) : Res A :=
  match o with
  | Some x => ok x
  | None => raise TypeError
  end.

(** [a and b], [a or b]: the right operand is evaluated only if needed. *)
Definition and_then (a : bool) (b : Res bool) : Res bool :=
  if a then b else ok false.
Definition or_else (a : bool) (b : Res bool) : Res bool :=
  if a then ok true else b.

Definition Qgt_bool (a b : Q) : bool := negb (Qle_bool a b).

(** Lines 174-177. *)
Definition price_condition_met (p : Params) (row : Series) (limit_price : Float.t)
  : Res bool :=
  (let* up := and_then (Qgt_bool (open_limit_offset p) 0)
                (let* high := getfloat row "High" in ok (high >=# limit_price)) in
   or_else up
     (and_then (Qle_bool (open_limit_offset p) 0)
        (let* low := getfloat row "Low" in ok (low <=# limit_price))))%res.

(** Lines 178-184. *)
Definition indicators_condition_met (p : Params) (row : Series) : Res bool :=
  (let* c_sma := or_else (negb (use_sma p))
                   (let* o := getfloat row "Open" in
                    let* m := getfloat row "SMA" in ok (o ># m)) in
   and_then c_sma
    (let* c_hma := or_else (negb (use_hma p))
                     (let* o := getfloat row "Open" in
                      let* m := getfloat row "HMA" in ok (o ># m)) in
     and_then c_hma
      (let* c_slope := or_else (negb (use_rsi_slope p))
                         (let* u := getcell row "UpSlope" in ok (truthy u)) in
       and_then c_slope
        (let* c_low := or_else (negb (use_rsi_low p))
                         (let* r := getfloat row "RSI" in ok (r >=# fl (rsi_low p))) in
         and_then c_low
           (or_else (negb (use_rsi_hi p))
              (let* r := getfloat row "RSI" in ok (r <=# fl (rsi_high p))))))))%res.

(** Lines 185-187. *)
Definition days_condition_met (p : Params) (j : Timestamp) : bool :=
  bool_decide (weekday j ∈ allowed_days p).

(** Lines 172-194: the entry check, run only while no trade is open. *)
Definition entry_check (p : Params) (j : Timestamp) (row : Series)
    (limit_price : Float.t) (v : WeekVars) : Res WeekVars :=
  match trade_entry_date v with
  | Some _ => ok v
  | None =>
      (let* price := price_condition_met p row limit_price in
       let* indicators := indicators_condition_met p row in
       let days := days_condition_met p j in
       if price && indicators && days
       then
         let* rsi := getcell row "RSI" in
         ok {| trade_entry_date := Some j;
               trade_exit_date := trade_exit_date v;
               trade_entry_price := Some limit_price;
               trade_exit_price := trade_exit_price v;
               trade_entry_rsi := Some rsi;
               increased_take_profit := increased_take_profit v;
               trade_made := true |}
       else ok v)%res
  end.

(** Lines 196-201: the boost of the take-profit target.  It returns the
    week's variables and the target the exit check will use. *)
Definition boost_check (p : Params) (row : Series)
    (take_profit_price : Float.t) (v : WeekVars) : Res (WeekVars * Float.t) :=
  if bool_decide (is_Some (trade_entry_date v)) && negb (increased_take_profit v)
  then
    (let* high := getfloat row "High" in
     let* entry := need (trade_entry_price v) in
     if high >=# entry *# fl (1 + take_profit_percentage p / 2)
     then
       ok ({| trade_entry_date := trade_entry_date v;
              trade_exit_date := trade_exit_date v;
              trade_entry_price := trade_entry_price v;
              trade_exit_price := trade_exit_price v;
              trade_entry_rsi := trade_entry_rsi v;
              increased_take_profit := true;
              trade_made := trade_made v |},
           entry *# fl (1 + take_profit_percentage p + take_profit_increase p))
     else ok (v, take_profit_price))%res
  else ok (v, take_profit_price).

(** Lines 203-208: the exit check; the boolean is the [break]. *)
Definition exit_check (j : Timestamp) (row : Series)
    (take_profit_price : Float.t) (v : WeekVars) : Res (WeekVars * bool) :=
  if bool_decide (is_Some (trade_entry_date v))
  then
    (let* high := getfloat row "High" in
     if high >=# take_profit_price
     then
       ok ({| trade_entry_date := trade_entry_date v;
              trade_exit_date := Some j;
              trade_entry_price := trade_entry_price v;
              trade_exit_price := Some take_profit_price;
              trade_entry_rsi := trade_entry_rsi v;
              increased_take_profit := increased_take_profit v;
              trade_made := trade_made v |}, true)
     else ok (v, false))%res
  else ok (v, false).

(** Lines 167-170: what every bar computes first. *)
Definition limit_price_of (p : Params) (open_price : Float.t) (slippage : Q)
  : Float.t :=
  open_price +# fl (open_limit_offset p) +# fl slippage.

Definition initial_target (p : Params) (limit_price : Float.t) : Float.t :=
  limit_price *# fl (1 + take_profit_percentage p).

(** The body of the loop over the week's bars (lines 165-208). *)
Definition bar_step (p : Params) (j : Timestamp) (row : Series) (v : WeekVars)
  : M (WeekVars * bool) :=
  (let* open_price := lift (getfloat row "Open") in
   let* slippage := uniform (- open_max_slippage p) (open_max_slippage p) in
   let limit_price := limit_price_of p open_price slippage in
   let take_profit_price := initial_target p limit_price in
   let* v := lift (entry_check p j row limit_price v) in
   let* (v, take_profit_price) := lift (boost_check p row take_profit_price v) in
   lift (exit_check j row take_profit_price v))%sim.

(** [for j, row in weekly_data.iterrows(): ...], with its [break]. *)
Fixpoint week_loop (p : Params) (bars : list (Timestamp * Series)) (v : WeekVars)
  : M WeekVars :=
  match bars with
  | [] => ret v
  | (j, row) :: rest =>
      (let* (v, stop) := bar_step p j row v in
       if stop then ret v else week_loop p rest v)%sim
  end.

(** Lines 210-215: the forced exit at the end of the week. *)
Definition forced_exit (p : Params) (weekly_data : DataFrame) (v : WeekVars)
  : M WeekVars :=
  if bool_decide (is_Some (trade_entry_date v))
     && bool_decide (trade_exit_date v = None)
  then
    (let* last := lift (last_row weekly_data) in
     let* slippage := uniform (- close_max_slippage p) (close_max_slippage p) in
     let* close := lift (getfloat last.2 "Close") in
     ret {| trade_entry_date := trade_entry_date v;
            trade_exit_date := Some last.1;
            trade_entry_price := trade_entry_price v;
            trade_exit_price := Some (close +# fl slippage);
            trade_entry_rsi := trade_entry_rsi v;
            increased_take_profit := increased_take_profit v;
            trade_made := trade_made v |})%sim
  else ret v.

(** Lines 217-232: the record of the week's trade, if one was made. *)
Definition record_trade (v : WeekVars) (trades : list Trade) : Res (list Trade) :=
  if trade_made v
  then
    (let* exit_date := need (trade_exit_date v) in
     let* entry_date := need (trade_entry_date v) in
     let days_in_trade := exit_date - entry_date in
     let* exit_price := need (trade_exit_price v) in
     let* entry_price := need (trade_entry_price v) in
     let trade_profit := (exit_price /# entry_price -# fl 1) *# fl 100 in
     let* entry_rsi := need (trade_entry_rsi v) in
     ok (trades ++ [{| Entry_Date := entry_date;
                       Exit_Date := exit_date;
                       Entry_Price := entry_price;
                       Exit_Price := exit_price;
                       Profit := trade_profit;
                       Days_in_Trade := days_in_trade;
                       Entry_Day := day_name entry_date;
                       Exit_Day := day_name exit_date;
                       Entry_RSI := entry_rsi;
                       TP_Boost := increased_take_profit v |}]))%res
  else ok trades.

(** One iteration of [for week_start, weekly_data in grouped]. *)
Definition week (p : Params) (weekly_data : DataFrame) (trades : list Trade)
  : M (list Trade) :=
  (let* v := week_loop p (rows weekly_data) week_init in
   let* v := forced_exit p weekly_data v in
   lift (record_trade v trades))%sim.

Fixpoint weeks (p : Params) (grouped : list (Timestamp * DataFrame))
    (trades : list Trade) : M (list Trade) :=
  match grouped with
  | [] => ret trades
  | (_, weekly_data) :: rest =>
      (let* trades := week p weekly_data trades in weeks p rest trades)%sim
  end.

(** ** The table of trades (lines 234-236) *)

Definition trade_columns : list string :=
  ["Entry Date"; "Exit Date"; "Entry Price"; "Exit Price"; "Profit (%)";
   "Days in Trade"; "Entry Day"; "Exit Day"; "Entry RSI"; "TP Boost"].

Definition trade_dict (t : Trade) : Series :=
  list_to_map
    [("Entry Date", CTime (Entry_Date t));
     ("Exit Date", CTime (Exit_Date t));
     ("Entry Price", CFloat (Entry_Price t));
     ("Exit Price", CFloat (Exit_Price t));
     ("Profit (%)", CFloat (Profit t));
     ("Days in Trade", CInt (Days_in_Trade t));
     ("Entry Day", CStr (Entry_Day t));
     ("Exit Day", CStr (Exit_Day t));
     ("Entry RSI", Entry_RSI t);
     ("TP Boost", CBool (TP_Boost t))].

(** [pd.DataFrame(trades)]: the columns are the keys of the dicts, the
    index counts from 0.  An empty list gives a table with no rows and
    no columns. *)
Definition frame_of_dicts (trades : list Trade) : DataFrame :=
  {| columns := match trades with [] => [] | _ :: _ => trade_columns end;
     rows := imap (fun i t => (Z.of_nat i, trade_dict t)) trades |}.

(** [df.empty]: some axis has length 0. *)
Definition empty (df : DataFrame) : bool :=
  bool_decide (rows df = []) || bool_decide (columns df = []).

(** ** Reductions of a series; NaN is skipped *)

Definition max2 (acc x : Float.t) : Float.t :=
  match acc, x with
  | None, _ => x
  | _, None => acc
  | Some a, Some b => if Qgt_bool b a then Some b else Some a
  end.

Definition min2 (acc x : Float.t) : Float.t :=
  match acc, x with
  | None, _ => x
  | _, None => acc
  | Some a, Some b => if Qgt_bool a b then Some b else Some a
  end.

Definition series_max (xs : list Float.t) : Float.t := foldl max2 None xs.
Definition series_min (xs : list Float.t) : Float.t := foldl min2 None xs.

(** [idxmax]/[idxmin]: the label of the first row that holds the extremum;
    a series with no number has none. *)
Definition first_label (target : Float.t) (labelled : list (Z * Float.t))
  : Res Z :=
  match target with
  | None => raise ValueError
  | Some m =>
      match filter (fun lx => Float.cmp Qeq_bool lx.2 (Some m) = true) labelled with
      | lx :: _ => ok lx.1
      | [] => raise ValueError
      end
  end.

Definition idxmax (labelled : list (Z * Float.t)) : Res Z :=
  first_label (series_max (snd <$> labelled)) labelled.
Definition idxmin (labelled : list (Z * Float.t)) : Res Z :=
  first_label (series_min (snd <$> labelled)) labelled.

Definition series_sum (xs : list Float.t) : Q :=
  foldl (fun acc x => match x with Some a => (acc + a)%Q | None => acc end) 0%Q xs.

Definition series_count (xs : list Float.t) : Z :=
  Z.of_nat (length (filter (fun x => Float.is_nan x = false) xs)).

(** [mean]: NaN when no number is left. *)
Definition series_mean (xs : list Float.t) : Float.t :=
  fl (series_sum xs) /# Float.of_Z (series_count xs).

(** [df.loc[label, column]]; a label that is not in the index is a
    [KeyError] as well. *)
Definition loc (df : DataFrame) (label : Z) (column : string) : Res Cell :=
  match filter (fun r => r.1 = label) (rows df) with
  | r :: _ => getcell r.2 column
  | [] => raise (KeyError column)
  end.

(** A column with its index labels. *)
Definition labelled_floats (df : DataFrame) (column : string)
  : Res (list (Z * Float.t)) :=
  (let* xs := getitem_float df column in ok (zip (fst <$> rows df) xs))%res.

(** ** Aggregation (lines 238-257) *)

Record Summary : Type := {
  max_exit_profit : option Float.t;
  min_exit_profit : option Float.t;
  max_exit_profit_date : option Cell;
  min_exit_profit_date : option Cell;
  total_trades : Z;
  winning_trades : Z;
  losing_trades : Z;
  win_rate : Float.t;
  average_profit : Float.t;
  profit_per_week : Float.t;
  average_days_in_trade : Float.t
}.

Definition aggregate (trades_df : DataFrame) (total_weeks : Z) : Res Summary :=
  (let* max_exit_profit :=
     if negb (empty trades_df)
     then let* xs := getitem_float trades_df "Profit (%)" in ok (Some (series_max xs))
     else ok None in
   let* min_exit_profit :=
     if negb (empty trades_df)
     then let* xs := getitem_float trades_df "Profit (%)" in ok (Some (series_min xs))
     else ok None in
   let* dates :=
     if negb (empty trades_df)
     then
       let* xs := labelled_floats trades_df "Profit (%)" in
       let* imax := idxmax xs in
       let* dmax := loc trades_df imax "Exit Date" in
       let* xs := labelled_floats trades_df "Profit (%)" in
       let* imin := idxmin xs in
       let* dmin := loc trades_df imin "Exit Date" in
       ok (Some dmax, Some dmin)
     else ok (None, None) in
   let total_trades := Z.of_nat (length (rows trades_df)) in
   let* profits := getitem_float trades_df "Profit (%)" in
   let winning_trades :=
     Z.of_nat (length (filter (fun x => (x ># fl 0) = true) profits)) in
   let losing_trades := total_trades - winning_trades in
   let win_rate :=
     if 0 <? total_trades
     then Float.of_Z winning_trades /# Float.of_Z total_trades *# fl 100
     else fl 0 in
   let* average_profit :=
     if 0 <? total_trades
     then let* xs := getitem_float trades_df "Profit (%)" in ok (series_mean xs)
     else ok (fl 0) in
   let* profit_per_week :=
     if 0 <? total_trades
     then let* xs := getitem_float trades_df "Profit (%)" in
          ok (fl (series_sum xs) /# Float.of_Z total_weeks)
     else ok (fl 0) in
   let* average_days_in_trade :=
     if 0 <? total_trades
     then let* xs := getitem_float trades_df "Days in Trade" in ok (series_mean xs)
     else ok (fl 0) in
   ok {| max_exit_profit := max_exit_profit;
         min_exit_profit := min_exit_profit;
         max_exit_profit_date := dates.1;
         min_exit_profit_date := dates.2;
         total_trades := total_trades;
         winning_trades := winning_trades;
         losing_trades := losing_trades;
         win_rate := win_rate;
         average_profit := average_profit;
         profit_per_week := profit_per_week;
         average_days_in_trade := average_days_in_trade |})%res.

(** ** The printed summary (lines 259-272)

    What a line shows is kept as the values handed to the format string;
    the rendering of digits is not modelled, whether the format accepts
    the value is. *)

Inductive Shown : Type :=
| ShBool (b : bool)
| ShInt (n : Z)
| ShFloat (digits : nat) (x : Float.t)
| ShObject (o : option Cell).

(** [f'{x:.2f}']: [None] has no float format. *)
Definition format_f (digits : nat) (x : option Float.t) : Res Shown :=
  match x with
  | Some v => ok (ShFloat digits v)
  | None => raise TypeError
  end.

Definition print_summary (p : Params) (total_weeks : Z) (s : Summary)
  : Res (list (string * list Shown)) :=
  (let l1 := ("Using SMA", [ShBool (use_sma p)]) in
   let l2 := ("Using HMA", [ShBool (use_hma p)]) in
   let* low := format_f 1 (Some (Float.of_Q (rsi_low p))) in
   let l3 := ("Using RSI Low", [ShBool (use_rsi_low p); low]) in
   let* high := format_f 1 (Some (Float.of_Q (rsi_high p))) in
   let l4 := ("Using RSI High", [ShBool (use_rsi_hi p); high]) in
   let l5 := ("Total Trades", [ShInt (total_trades s)]) in
   let l6 := ("Winning Trades", [ShInt (winning_trades s)]) in
   let l7 := ("Losing Trades", [ShInt (losing_trades s)]) in
   let* wr := format_f 2 (Some (win_rate s)) in
   let l8 := ("Win Rate", [wr]) in
   let* ap := format_f 2 (Some (average_profit s)) in
   let l9 := ("Average Profit per Trade", [ap]) in
   let* pw := format_f 2 (Some (profit_per_week s)) in
   let l10 := ("Profit Per Week", [pw]) in
   let* mx := format_f 2 (max_exit_profit s) in
   let l11 := ("Maximum Exit Profit", [mx; ShObject (max_exit_profit_date s)]) in
   let* mn := format_f 2 (min_exit_profit s) in
   let l12 := ("Minimum Exit Profit", [mn; ShObject (min_exit_profit_date s)]) in
   let* ad := format_f 2 (Some (average_days_in_trade s)) in
   let l13 := ("Average Number of Days in Trade", [ad]) in
   let l14 := ("Total Number of Weeks in the Time Period", [ShInt total_weeks]) in
   ok [l1; l2; l3; l4; l5; l6; l7; l8; l9; l10; l11; l12; l13; l14])%res.

(** ** The script, stage by stage

    The module's globals.  [data] is the object the provider returned:
    every later statement that names [data] acts on that same object. *)

Record Store : Type := {
  data : DataFrame;
  grouped : list (Timestamp * DataFrame);
  total_weeks : Z;
  trades : list Trade;
  trades_log : option DataFrame;
  summary : option Summary;
  stdout : list (string * list Shown)
}.

(** Line 101: [data = yf.download(...)]. *)
Definition downloaded (bars : DataFrame) : Store :=
  {| data := bars; grouped := []; total_weeks := 0; trades := [];
     trades_log := None; summary := None; stdout := [] |}.

(** Lines 127-135: indicator annotation, then [sort_index]. *)
Definition stage_indicators (ta : Indicators) (p : Params) (st : Store)
  : Res Store :=
  (let* annotated := annotate ta p (data st) in
   ok {| data := sort_index annotated;
         grouped := grouped st; total_weeks := total_weeks st;
         trades := trades st; trades_log := trades_log st;
         summary := summary st; stdout := stdout st |})%res.

(** Lines 144-151: week partitioning. *)
Definition stage_partition (st : Store) : Res Store :=
  (let data := add_week_start (data st) in
   let* grouped := groupby data "Week Start" in
   ok {| data := data;
         grouped := grouped; total_weeks := Z.of_nat (length grouped);
         trades := trades st; trades_log := trades_log st;
         summary := summary st; stdout := stdout st |})%res.

(** Lines 153-232: trade simulation. *)
Definition stage_simulate (p : Params) (st : Store) : M Store :=
  (let* trades := weeks p (grouped st) (trades st) in
   ret {| data := data st;
          grouped := grouped st; total_weeks := total_weeks st;
          trades := trades; trades_log := trades_log st;
          summary := summary st; stdout := stdout st |})%sim.

(** Lines 234-257: the table of trades, its file, and the aggregates.  The
    file is written and the table printed before the aggregates are
    computed; a run that raises ends the script and leaves no store here. *)
Definition stage_aggregate (st : Store) : Res Store :=
  (let trades_df := frame_of_dicts (trades st) in
   let* s := aggregate trades_df (total_weeks st) in
   ok {| data := data st;
         grouped := grouped st; total_weeks := total_weeks st;
         trades := trades st; trades_log := Some trades_df;
         summary := Some s; stdout := stdout st |})%res.

(** Lines 259-272: the printed summary. *)
Definition stage_report (p : Params) (st : Store) : Res Store :=
  (let* s := need (summary st) in
   let* lines := print_summary p (total_weeks st) s in
   ok {| data := data st;
         grouped := grouped st; total_weeks := total_weeks st;
         trades := trades st; trades_log := trades_log st;
         summary := summary st; stdout := stdout st ++ lines |})%res.

Definition script (ta : Indicators) (p : Params) (bars : DataFrame) : M Store :=
  (let* st := lift (stage_indicators ta p (downloaded bars)) in
   let* st := lift (stage_partition st) in
   let* st := stage_simulate p st in
   let* st := lift (stage_aggregate st) in
   lift (stage_report p st))%sim.

(** ** Concrete tables for the examples *)

(** A provider's bar: open, high, low, close on a date. *)
Definition bar (d : Timestamp) (o h l c : Q) : Timestamp * Series :=
  (d, list_to_map [("Open", CFloat (fl o)); ("High", CFloat (fl h));
                   ("Low", CFloat (fl l)); ("Close", CFloat (fl c))]).

Definition ohlc (bars : list (Timestamp * Series)) : DataFrame :=
  {| columns := ["Open"; "High"; "Low"; "Close"]; rows := bars |}.

(** An annotated bar, as a week's table holds it. *)
Definition annotated_bar (d : Timestamp) (o h l c : Q) (rsi previous : Float.t)
  : Timestamp * Series :=
  (d, list_to_map [("Open", CFloat (fl o)); ("High", CFloat (fl h));
                   ("Low", CFloat (fl l)); ("Close", CFloat (fl c));
                   ("SMA", CFloat Float.nan); ("HMA", CFloat Float.nan);
                   ("RSI", CFloat rsi); ("Previous_RSI", CFloat previous);
                   ("UpSlope", CBool (rsi ># previous));
                   ("Week Start", CTime (week_start d))]).

Definition annotated_columns : list string :=
  ["Open"; "High"; "Low"; "Close"; "SMA"; "HMA"; "RSI"; "Previous_RSI";
   "UpSlope"; "Week Start"].

Definition week_table (bars : list (Timestamp * Series)) : DataFrame :=
  {| columns := annotated_columns; rows := bars |}.

(** The provider on a series shorter than every period: nothing but NaN. *)
Definition warming_up : Indicators :=
  {| ta_sma := fun close _ => replicate (length close) Float.nan;
     ta_hma := fun close _ => replicate (length close) Float.nan;
     ta_rsi := fun close _ => replicate (length close) Float.nan |}.

(** A generator that always draws the middle of the interval, so that a
    symmetric slippage is zero. *)
Definition midpoint : Rng := {| draws := fun _ => 0.5%Q; pos := 0 |}.

(** Monday 2024-01-01 is day 19723. *)
Definition mon : Timestamp := 19723.
Definition tue : Timestamp := 19724.
Definition wed : Timestamp := 19725.
Definition thu : Timestamp := 19726.
Definition fri : Timestamp := 19727.


(** ** The specification's vocabulary *)

(** The two derived fields of a trade, as the specification words them. *)
Definition profit_formula (t : Trade) : Prop :=
  Profit t = (Exit_Price t /# Entry_Price t -# fl 1) *# fl 100.

Definition days_formula (t : Trade) : Prop :=
  Days_in_Trade t = Exit_Date t - Entry_Date t.

(** What the entry of a trade fixes for the rest of the week. *)
Definition same_entry (v v' : WeekVars) : Prop :=
  trade_entry_date v' = trade_entry_date v /\
  trade_entry_price v' = trade_entry_price v /\
  trade_entry_rsi v' = trade_entry_rsi v /\
  trade_made v' = trade_made v.







(** ** Example weeks *)

(** A week that enters on Monday at 10.00 and opens lower on Tuesday. *)
Definition gap_down_week : DataFrame :=
  week_table
    [annotated_bar mon 9.99 10.20 9.90 10.10 (fl 60) (fl 55);
     annotated_bar tue 9.50 10.20 9.40 10.00 (fl 58) (fl 60)].

(** Scenario B of the specification: entry on Monday at 10.00, Tuesday's
    high 10.40 reaches the boost trigger 10.35, Wednesday's high is 10.85. *)
Definition scenario_B_week : DataFrame :=
  week_table
    [annotated_bar mon 9.99 10.20 9.90 10.10 (fl 60) (fl 55);
     annotated_bar tue 10.15 10.40 10.10 10.35 (fl 62) (fl 60);
     annotated_bar wed 10.40 10.85 10.30 10.60 (fl 64) (fl 62);
     annotated_bar thu 10.60 10.70 10.40 10.50 (fl 63) (fl 64);
     annotated_bar fri 10.50 10.60 10.30 10.40 (fl 61) (fl 63)].

(** Two bars from the provider, too few for any indicator. *)
Definition two_bars : DataFrame :=
  ohlc [bar mon 9.99 10.20 9.90 10.10; bar tue 9.50 10.20 9.40 10.00].

(** A single Tuesday bar: Tuesday is not an allowed day. *)
Definition one_tuesday : DataFrame :=
  ohlc [bar tue 9.99 10.20 9.90 10.10].

(** The parameters with every indicator gate disabled. *)
Definition gates_off (p : Params) : Params := {|
  open_limit_offset := open_limit_offset p;
  take_profit_percentage := take_profit_percentage p;
  take_profit_increase := take_profit_increase p;
  open_max_slippage := open_max_slippage p;
  close_max_slippage := close_max_slippage p;
  rsi_low := rsi_low p;
  rsi_high := rsi_high p;
  use_sma := false;
  use_hma := false;
  use_rsi_low := false;
  use_rsi_hi := false;
  use_rsi_slope := false;
  slope_lookback := slope_lookback p;
  rsi_period := rsi_period p;
  sma_period := sma_period p;
  hma_period := hma_period p;
  allowed_days := allowed_days p
|}.

(** What the guards of lines 239-257 assign when there is no trade. *)
Definition zero_summary : Summary := {|
  max_exit_profit := None;
  min_exit_profit := None;
  max_exit_profit_date := None;
  min_exit_profit_date := None;
  total_trades := 0;
  winning_trades := 0;
  losing_trades := 0;
  win_rate := fl 0;
  average_profit := fl 0;
  profit_per_week := fl 0;
  average_days_in_trade := fl 0
|}.

(** The oscillator-rising cell of a bar, as the specification words it:
    the current oscillator strictly greater than the prior one. *)
Definition rising_cell (row : Series) : Prop :=
  exists current prior,
    getfloat row "RSI" = ok current /\
    getfloat row "Previous_RSI" = ok prior /\
    row !! "UpSlope" = Some (CBool (current ># prior)).

(** A table after statements that write only the listed columns: the same
    rows under the same labels, every other cell as it was. *)
Definition preserved (written : list string) (df df' : DataFrame) : Prop :=
  length (rows df') = length (rows df) /\
  forall i r r',
    rows df !! i = Some r -> rows df' !! i = Some r' ->
    r'.1 = r.1 /\
    forall label, label ∉ written -> r'.2 !! label = r.2 !! label.

(** A stage that leaves the provider's table as it received it. *)
Definition leaves_table_unchanged (stage : Store -> Res Store) : Prop :=
  forall st st', stage st = ok st' -> data st' = data st.

(** The columns lines 128-132 write, and the one line 145 writes. *)
Definition indicator_columns : list string :=
  ["SMA"; "HMA"; "RSI"; "Previous_RSI"; "UpSlope"].
Definition week_columns : list string := ["Week Start"].

(** Monday's bar of [gap_down_week] and what the loop body reads from it. *)
Definition monday_bar : Timestamp * Series :=
  annotated_bar mon 9.99 10.20 9.90 10.10 (fl 60) (fl 55).


(** A provider whose oscillator stays at 60, and three bars for it. *)
Definition flat_oscillator : Indicators :=
  {| ta_sma := fun close _ => replicate (length close) Float.nan;
     ta_hma := fun close _ => replicate (length close) Float.nan;
     ta_rsi := fun close _ => replicate (length close) (fl 60) |}.

Definition three_bars : DataFrame :=
  ohlc [bar mon 9.99 10.20 9.90 10.10;
        bar tue 10.10 10.30 10.00 10.20;
        bar wed 10.20 10.40 10.10 10.30].

(** The generator after [n] draws of [midpoint]. *)
Definition midpoint_after (n : nat) : Rng :=
  {| draws := draws midpoint; pos := n |}.

(** The value of a run that did not raise. *)
Definition from_ok {A} (d : A) (r : Res A) : A :=
  match r with
  | inr x => x
  | inl _ => d
  end.


(** The first two stages on [three_bars] with the flat oscillator, the
    week they make, and that week's Wednesday. *)
Definition flat_st1 : Store :=
  from_ok (downloaded three_bars)
    (stage_indicators flat_oscillator script_params (downloaded three_bars)).

Definition flat_st2 : Store := from_ok flat_st1 (stage_partition flat_st1).

Definition flat_week : DataFrame :=
  (default (mon, ohlc []) (grouped flat_st2 !! 0%nat)).2.

Definition flat_wednesday : Series :=
  (default (wed, ∅) (rows flat_week !! 2%nat)).2.

(** The first stage on [two_bars] during warm-up, and the second on the
    table as the provider gave it. *)
Definition two_bars_annotated : Store :=
  from_ok (downloaded two_bars)
    (stage_indicators warming_up script_params (downloaded two_bars)).

Definition two_bars_partitioned : Store :=
  from_ok (downloaded two_bars) (stage_partition (downloaded two_bars)).

(** ** More of the specification's vocabulary *)

(** The calendar week that starts on the Monday [k]. *)
Definition in_week (k j : Timestamp) : Prop :=
  weekday k = 0 /\ k <= j < k + 7.


(** [random.uniform(-bound, bound)] for the generator's number [u]. *)
Definition slippage_of (bound u : Q) : Q :=
  (- bound + (bound - - bound) * u)%Q.



(** The generator after [n] more draws. *)
Definition advance_by (n : nat) (g : Rng) : Rng :=
  {| draws := draws g; pos := pos g + n |}.

(** The entry test of lines 174-190 on one bar, for the number [u] the
    generator gives that bar. *)
Definition enters (p : Params) (j : Timestamp) (row : Series) (u : Q) : Prop :=
  exists open_price,
    getfloat row "Open" = ok open_price /\
    price_condition_met p row
      (limit_price_of p open_price (slippage_of (open_max_slippage p) u)) = ok true /\
    indicators_condition_met p row = ok true /\
    days_condition_met p j = true.

(** The week's variables as the loop keeps them: all unset before the
    entry; after it the entry is complete, and the exit date and the exit
    price are set together. *)
Definition consistent (v : WeekVars) : Prop :=
  match trade_entry_date v with
  | None =>
      trade_made v = false /\ increased_take_profit v = false /\
      trade_entry_price v = None /\ trade_entry_rsi v = None /\
      trade_exit_date v = None /\ trade_exit_price v = None
  | Some _ =>
      trade_made v = true /\
      is_Some (trade_entry_price v) /\ is_Some (trade_entry_rsi v) /\
      (is_Some (trade_exit_date v) <-> is_Some (trade_exit_price v))
  end.

(** Two trades for the examples: a winner of 5% and a loser of 2%. *)
Definition sample_trades : list Trade :=
  [ {| Entry_Date := mon; Exit_Date := tue;
       Entry_Price := fl 10; Exit_Price := fl 10.5; Profit := fl 5;
       Days_in_Trade := 1; Entry_Day := "Monday"; Exit_Day := "Tuesday";
       Entry_RSI := CFloat (fl 60); TP_Boost := false |};
    {| Entry_Date := mon + 7; Exit_Date := fri + 7;
       Entry_Price := fl 10; Exit_Price := fl 9.8; Profit := fl (-2);
       Days_in_Trade := 4; Entry_Day := "Monday"; Exit_Day := "Friday";
       Entry_RSI := CFloat (fl 55); TP_Boost := false |} ].




(** The partition of [two_bars] after its annotation, and its only week. *)
Definition two_bars_weeks : Store :=
  from_ok two_bars_annotated (stage_partition two_bars_annotated).

Definition two_bars_week : DataFrame :=
  (default (mon, ohlc []) (grouped two_bars_weeks !! 0%nat)).2.
(** * Properties *)

(** ** Running the two monads *)

Lemma bindR_ok {A B} (m : Res A) (k : A -> Res B) (y : B) :
  bindR m k = inr y -> exists x, m = inr x /\ k x = inr y.
Proof. destruct m as [e|x]; simpl; [discriminate | eauto]. Qed.

Lemma bind_ok {A B} (m : M A) (k : A -> M B) g y g' :
  bind m k g = inr (y, g') ->
  exists x g1, m g = inr (x, g1) /\ k x g1 = inr (y, g').
Proof.
  unfold bind. destruct (m g) as [e|[x g1]]; [discriminate | eauto].
Qed.

Lemma lift_ok {A} (r : Res A) g x g' :
  lift r g = inr (x, g') -> r = inr x /\ g' = g.
Proof.
  unfold lift, ok. destruct r; [discriminate|]. intros [= -> ->]. done.
Qed.

Lemma ret_ok {A} (x y : A) g g' : ret x g = inr (y, g') -> y = x /\ g' = g.
Proof. unfold ret, ok. intros [= -> ->]. done. Qed.

Lemma uniform_run a b g :
  uniform a b g = inr ((a + (b - a) * next_draw g)%Q, advance g).
Proof. reflexivity. Qed.

Lemma need_ok {A} (o : option A) x : need o = inr x -> o = Some x.
Proof. destruct o; simpl; [intros [= ->]; done | discriminate]. Qed.

(** Inversion of a successful run, one step at a time. *)
Ltac run_inv :=
  repeat match goal with
    | H : _ = ok _ |- _ => unfold ok in H
    | H : _ = raise _ |- _ => unfold raise in H
    | H : bind _ _ _ = inr _ |- _ =>
        let x := fresh "x" in let g := fresh "g" in
        let H1 := fresh "Hrun" in let H2 := fresh "Hrun" in
        apply bind_ok in H; destruct H as (x & g & H1 & H2)
    | H : bindR _ _ = inr _ |- _ =>
        let x := fresh "x" in
        let H1 := fresh "Hres" in let H2 := fresh "Hres" in
        apply bindR_ok in H; destruct H as (x & H1 & H2)
    | H : lift _ _ = inr _ |- _ =>
        let H1 := fresh "Hres" in
        apply lift_ok in H; destruct H as [H1 ->]
    | H : ret _ _ = inr _ |- _ =>
        apply ret_ok in H; destruct H as [-> ->]
    | H : need _ = inr _ |- _ => apply need_ok in H
    | H : ok _ = inr _ |- _ => unfold ok in H; injection H as <-
    | H : inr _ = inr _ |- _ => injection H as <-
    | H : raise _ = inr _ |- _ => discriminate H
    | H : inl _ = inr _ |- _ => discriminate H
    end.

(** ** The arithmetic of a trade record (C7) *)

Lemma record_trade_shape v trades trades' :
  record_trade v trades = inr trades' ->
  trades' = trades \/
  exists t, trades' = trades ++ [t] /\ profit_formula t /\ days_formula t /\
            trade_made v = true /\
            trade_entry_date v = Some (Entry_Date t) /\
            trade_exit_date v = Some (Exit_Date t) /\
            trade_entry_price v = Some (Entry_Price t) /\
            trade_exit_price v = Some (Exit_Price t) /\
            trade_entry_rsi v = Some (Entry_RSI t) /\
            TP_Boost t = increased_take_profit v.
Proof.
  unfold record_trade. destruct (trade_made v) eqn:Hmade.
  - intros H. run_inv. right. eexists. split; [reflexivity|].
    unfold profit_formula, days_formula. simpl. tauto.
  - intros [= <-]. by left.
Qed.

Lemma week_shape p weekly_data trades g trades' g' :
  week p weekly_data trades g = inr (trades', g') ->
  trades' = trades \/
  exists t, trades' = trades ++ [t] /\ profit_formula t /\ days_formula t.
Proof.
  unfold week. intros H. run_inv.
  apply record_trade_shape in Hres as [->|(t & -> & ? & ? & _)]; eauto.
Qed.



(** ** One bar of the week, taken apart *)

Lemma bar_step_inv p j row v g v' stop g' :
  bar_step p j row v g = inr ((v', stop), g') ->
  exists open_price v1 v2 target,
    getfloat row "Open" = ok open_price /\
    g' = advance g /\
    let slippage :=
      (- open_max_slippage p
       + (open_max_slippage p - - open_max_slippage p) * next_draw g)%Q in
    let limit_price := limit_price_of p open_price slippage in
    entry_check p j row limit_price v = ok v1 /\
    boost_check p row (initial_target p limit_price) v1 = ok (v2, target) /\
    exit_check j row target v2 = ok (v', stop).
Proof.
  unfold bar_step. intros H.
  apply bind_ok in H as (o & g1 & Ho & H). apply lift_ok in Ho as [Ho ->].
  apply bind_ok in H as (s & g2 & Hs & H).
  rewrite uniform_run in Hs. injection Hs as <- <-.
  apply bind_ok in H as (v1 & g3 & H1 & H). apply lift_ok in H1 as [H1 ->].
  apply bind_ok in H as ([v2 tp] & g4 & H2 & H). apply lift_ok in H2 as [H2 ->].
  apply lift_ok in H as [H3 ->].
  exists o, v1, v2, tp. simpl. auto.
Qed.


Lemma entry_check_entered p j row limit_price v :
  is_Some (trade_entry_date v) -> entry_check p j row limit_price v = ok v.
Proof. intros [d Hd]. unfold entry_check. by rewrite Hd. Qed.

Lemma boost_check_same p row target v v' target' :
  boost_check p row target v = ok (v', target') ->
  same_entry v v' /\ trade_exit_date v' = trade_exit_date v /\
  trade_exit_price v' = trade_exit_price v.
Proof.
  unfold boost_check, same_entry.
  destruct (_ && _); [|intros [= <- <-]; tauto].
  intros H. run_inv.
  destruct (_ >=# _); run_inv; simpl; tauto.
Qed.

Lemma exit_check_same j row target v v' stop :
  exit_check j row target v = ok (v', stop) ->
  same_entry v v' /\ increased_take_profit v' = increased_take_profit v.
Proof.
  unfold exit_check, same_entry.
  destruct (bool_decide _); [|intros [= <- <-]; tauto].
  intros H. run_inv.
  destruct (_ >=# _); run_inv; simpl; tauto.
Qed.

Lemma same_entry_trans v1 v2 v3 :
  same_entry v1 v2 -> same_entry v2 v3 -> same_entry v1 v3.
Proof. unfold same_entry. intros (-> & -> & -> & ->) (-> & -> & -> & ->). done. Qed.

Lemma same_entry_refl v : same_entry v v.
Proof. by unfold same_entry. Qed.

Lemma bar_step_entered p j row v g v' stop g' :
  is_Some (trade_entry_date v) ->
  bar_step p j row v g = inr ((v', stop), g') ->
  same_entry v v'.
Proof.
  intros Hin H.
  apply bar_step_inv in H as (o & v1 & v2 & tp & _ & _ & H1 & H2 & H3).
  rewrite entry_check_entered in H1 by done. injection H1 as <-.
  apply boost_check_same in H2 as [H2 _]. apply exit_check_same in H3 as [H3 _].
  by eapply same_entry_trans.
Qed.

Lemma week_loop_entered p bars : forall v g v' g',
  is_Some (trade_entry_date v) ->
  week_loop p bars v g = inr (v', g') ->
  same_entry v v'.
Proof.
  induction bars as [|[j row] rest IH]; simpl; intros v g v' g' Hin H.
  - run_inv. apply same_entry_refl.
  - apply bind_ok in H as ([v1 stop] & g1 & Hstep & H).
    pose proof (bar_step_entered _ _ _ _ _ _ _ _ Hin Hstep) as Hs.
    destruct stop.
    + run_inv. done.
    + eapply same_entry_trans; [exact Hs|].
      eapply IH; [|exact H]. destruct Hs as [-> _]. done.
Qed.

Lemma weeks_length p grouped : forall trades g trades' g',
  weeks p grouped trades g = inr (trades', g') ->
  (length trades' <= length trades + length grouped)%nat.
Proof.
  induction grouped as [|[k wd] rest IH]; simpl; intros trades g trades' g' H.
  - run_inv. lia.
  - run_inv. apply IH in Hrun0.
    apply week_shape in Hrun as [->|(t & -> & _)]; [lia|].
    rewrite length_app in Hrun0. simpl in Hrun0. lia.
Qed.

(** C4: a week adds at most one record to the list of trades, so the
    simulation records at most as many trades as there are weeks; and once
    a bar has triggered the entry, the entry check of every later bar of
    the week is skipped (whatever the bar holds) and the loop leaves the
    entry date, price, oscillator value and the trade flag as they are. *)
Theorem one_trade_per_week p :
  (forall weekly_data trades g trades' g',
     week p weekly_data trades g = inr (trades', g') ->
     trades' = trades \/ exists t, trades' = trades ++ [t]) /\
  (forall grouped trades g trades' g',
     weeks p grouped trades g = inr (trades', g') ->
     (length trades' <= length trades + length grouped)%nat) /\
  (forall j row limit_price v,
     is_Some (trade_entry_date v) ->
     entry_check p j row limit_price v = ok v) /\
  (forall bars v g v' g',
     is_Some (trade_entry_date v) ->
     week_loop p bars v g = inr (v', g') ->
     same_entry v v').
Proof.
  repeat split.
  - intros wd trades g trades' g' H.
    apply week_shape in H as [->|(t & -> & _)]; eauto.
  - apply weeks_length.
  - apply entry_check_entered.
  - eapply week_loop_entered; eassumption.
  - eapply week_loop_entered; eassumption.
  - eapply week_loop_entered; eassumption.
  - eapply week_loop_entered; eassumption.
Qed.

(** ** The variables of an open trade *)


Lemma entry_check_inv p j row limit_price v v' :
  entry_check p j row limit_price v = ok v' ->
  v' = v \/
  (trade_entry_date v = None /\
   price_condition_met p row limit_price = ok true /\
   indicators_condition_met p row = ok true /\
   days_condition_met p j = true /\
   exists rsi, row !! "RSI" = Some rsi /\
     v' = {| trade_entry_date := Some j;
             trade_exit_date := trade_exit_date v;
             trade_entry_price := Some limit_price;
             trade_exit_price := trade_exit_price v;
             trade_entry_rsi := Some rsi;
             increased_take_profit := increased_take_profit v;
             trade_made := true |}).
Proof.
  unfold entry_check. destruct (trade_entry_date v) eqn:Hd.
  { intros [= <-]. by left. }
  intros H. apply bindR_ok in H as (price & Hp & H).
  apply bindR_ok in H as (ind & Hi & H).
  destruct price, ind, (days_condition_met p j); simpl in H;
    try (injection H as <-; by left).
  apply bindR_ok in H as (rsi & Hr & H). injection H as <-.
  right. repeat split; try done.
  exists rsi. split; [|done].
  unfold getcell in Hr. destruct (row !! "RSI"); [|discriminate].
  by injection Hr as ->.
Qed.





(** ** The forced exit at the end of the week (C5) *)



(** ** The entry condition (C6) *)

Lemma Qgt_bool_iff a b : Qgt_bool a b = true <-> (b < a)%Q.
Proof.
  unfold Qgt_bool. rewrite negb_true_iff.
  destruct (Qle_bool a b) eqn:E.
  - apply Qle_bool_iff in E. split; [discriminate|]. intros H.
    exfalso. eapply Qlt_not_le; eassumption.
  - split; [|done]. intros _. apply Qnot_le_lt. intros H.
    apply Qle_bool_iff in H. congruence.
Qed.









(** ** The target of the exit check on a later bar *)

(** Once the boost has fired, a later bar that exits does so at its own
    limit price times (1 + take-profit fraction): line 170 has reset the
    target and the boost block is skipped. *)
Lemma exit_price_after_boost p j row v g v' g' open_price :
  is_Some (trade_entry_date v) ->
  increased_take_profit v = true ->
  getfloat row "Open" = ok open_price ->
  bar_step p j row v g = inr ((v', true), g') ->
  let slippage :=
    (- open_max_slippage p
     + (open_max_slippage p - - open_max_slippage p) * next_draw g)%Q in
  trade_exit_price v'
    = Some (initial_target p (limit_price_of p open_price slippage)).
Proof.
  intros Hin Hinc Ho H slippage.
  apply bar_step_inv in H as (o & v1 & v2 & tp & Ho' & _ & H1 & H2 & H3).
  assert (o = open_price) as -> by (unfold ok in *; congruence).
  rewrite entry_check_entered in H1 by done. injection H1 as <-.
  unfold boost_check in H2. rewrite Hinc, andb_false_r in H2.
  injection H2 as <- <-.
  unfold exit_check in H3. destruct (bool_decide _); [|discriminate].
  apply bindR_ok in H3 as (high & _ & H3).
  destruct (_ >=# _); [|discriminate]. by injection H3 as <-.
Qed.

(** ** Concrete runs *)

(** Evaluate a closed run and offer its only trade and final generator as
    the witnesses of the goal. *)
Ltac run_to_trade run :=
  let r := eval vm_compute in run in
  lazymatch r with
  | inr ([?t], ?g) => exists t, g; split; [vm_compute; reflexivity|]
  end.

Ltac eqv_decide :=
  match goal with
  | |- Float.eqv _ _ => vm_compute; reflexivity
  | |- ~ Float.eqv _ _ => vm_compute; discriminate
  | |- _ = _ => vm_compute; reflexivity
  end.

(** C1, the code at a failing input.  The week enters on Monday at 10.00
    and the boost never fires; Tuesday's high, 10.20, is below the target
    fixed at entry, 10.70.  The script still exits on Tuesday, at
    (9.50 + 0.01) * 1.07 = 10.1757: Tuesday's own open, offset and
    slippage, times 1.07. *)
Theorem gap_down_exit_price :
  exists t g',
    week script_params gap_down_week [] midpoint = inr ([t], g') /\
    Entry_Date t = mon /\
    Float.eqv (Entry_Price t) (fl 10) /\
    TP_Boost t = false /\
    Exit_Date t = tue /\
    Float.eqv (Exit_Price t) (fl ((9.50 + 0.01 + 0) * (1 + 0.07))) /\
    Float.eqv (Exit_Price t) (fl 10.1757) /\
    ~ Float.eqv (Exit_Price t) (Entry_Price t *# fl (1 + 0.07)) /\
    ~ Float.eqv (Exit_Price t) (Entry_Price t *# fl (1 + 0.07 + 0.01)).
Proof.
  run_to_trade (week script_params gap_down_week [] midpoint).
  repeat split; eqv_decide.
Qed.

(** C2, the code at a failing input: scenario B.  Monday enters at 10.00;
    Tuesday's high 10.40 fires the boost; on Wednesday the high 10.85 is
    above the boosted target 10.80, but the exit check compares it with
    (10.40 + 0.01) * 1.07 = 11.1387 and does not exit.  The trade is closed
    on Friday at the close, 10.40, with a profit of 4.00. *)
Theorem scenario_B_outcome :
  exists t g',
    week script_params scenario_B_week [] midpoint = inr ([t], g') /\
    Entry_Date t = mon /\
    Float.eqv (Entry_Price t) (fl 10) /\
    TP_Boost t = true /\
    Exit_Date t = fri /\
    Float.eqv (Exit_Price t) (fl 10.40) /\
    Float.eqv (Profit t) (fl 4) /\
    Exit_Date t <> wed /\
    ~ Float.eqv (Exit_Price t) (fl 10.80) /\
    ~ Float.eqv (Profit t) (fl 8).
Proof.
  run_to_trade (week script_params scenario_B_week [] midpoint).
  repeat split; try eqv_decide. vm_compute. discriminate.
Qed.

(** C3, the code at a failing input.  With no trade, [pd.DataFrame([])]
    has no column, and line 252 reads the column ['Profit (%)'] outside
    any guard: the aggregation raises [KeyError].  Were the aggregates
    those of the guards, line 269 would format [None] with [.2f] and raise
    [TypeError].  A run with a single Tuesday bar ends in the [KeyError]. *)
Theorem zero_trades_raise :
  (forall total_weeks,
     aggregate (frame_of_dicts []) total_weeks = raise (KeyError "Profit (%)")) /\
  (forall p total_weeks, print_summary p total_weeks zero_summary = raise TypeError) /\
  script warming_up script_params one_tuesday midpoint
    = raise (KeyError "Profit (%)").
Proof.
  split; [|split].
  - intros tw. reflexivity.
  - intros p tw. reflexivity.
  - vm_compute. reflexivity.
Qed.

(** ** Entry with undefined indicators (C10) *)



(** ** Tables: reading and writing columns *)

Lemma mapR_lookup {A B} (f : A -> Res B) l ys :
  mapR f l = inr ys ->
  length ys = length l /\
  forall i x, l !! i = Some x -> exists y, ys !! i = Some y /\ f x = inr y.
Proof.
  revert ys. induction l as [|a l IH]; simpl; intros ys H.
  - run_inv. split; [done|]. intros i x Hx. by rewrite lookup_nil in Hx.
  - run_inv. destruct (IH _ Hres1) as [Hlen Hall]. split; [simpl; lia|].
    intros [|i] z Hz; simpl in *.
    + injection Hz as <-. eauto.
    + eauto.
Qed.

Lemma getitem_float_lookup df label xs :
  getitem_float df label = inr xs ->
  length xs = length (rows df) /\
  forall i r, rows df !! i = Some r ->
    exists x, xs !! i = Some x /\ getfloat r.2 label = ok x.
Proof.
  unfold getitem_float, getitem. intros H. run_inv.
  destruct (bool_decide _); [|discriminate].
  apply mapR_lookup in Hres as [Hlen1 Hall1].
  apply mapR_lookup in Hres0 as [Hlen2 Hall2].
  split; [lia|]. intros i r Hr.
  destruct (Hall1 _ _ Hr) as (c & Hc & Hget).
  destruct (Hall2 _ _ Hc) as (y & Hy & Hf).
  exists y. split; [done|]. unfold getfloat. rewrite Hget. simpl. done.
Qed.

Lemma setitem_lookup df label values i r' :
  rows (setitem df label values) !! i = Some r' ->
  exists r, rows df !! i = Some r /\
    r' = (r.1, <[label := default (CFloat Float.nan) (values !! i)]> r.2).
Proof.
  unfold setitem. simpl. rewrite list_lookup_imap.
  destruct (rows df !! i) as [r|]; simpl; [|discriminate].
  intros [= <-]. eauto.
Qed.

Lemma setitem_lookup_Some df label values i r :
  rows df !! i = Some r ->
  rows (setitem df label values) !! i
    = Some (r.1, <[label := default (CFloat Float.nan) (values !! i)]> r.2).
Proof.
  intros Hr. unfold setitem. simpl. rewrite list_lookup_imap, Hr. reflexivity.
Qed.

Lemma getfloat_insert_float (row : Series) label (x : option Float.t) :
  getfloat (<[label := default (CFloat Float.nan) (CFloat <$> x)]> row) label
  = ok (default Float.nan x).
Proof.
  unfold getfloat, getcell. rewrite lookup_insert_eq. by destruct x.
Qed.

Lemma getfloat_insert_ne (row : Series) label label' c :
  label <> label' -> getfloat (<[label := c]> row) label' = getfloat row label'.
Proof. intros H. unfold getfloat, getcell. by rewrite lookup_insert_ne. Qed.

Lemma preserved_setitem df label values :
  preserved [label] df (setitem df label values).
Proof.
  split.
  - unfold setitem. simpl. apply length_imap.
  - intros i r r' Hr Hr'. apply setitem_lookup in Hr' as (r0 & Hr0 & ->).
    assert (r0 = r) as -> by congruence. simpl. split; [done|].
    intros l Hl. apply lookup_insert_ne. set_solver.
Qed.

Lemma preserved_trans w1 w2 df1 df2 df3 :
  preserved w1 df1 df2 -> preserved w2 df2 df3 -> preserved (w1 ++ w2) df1 df3.
Proof.
  intros [Hlen1 H1] [Hlen2 H2]. split; [lia|].
  intros i r r'' Hr Hr''.
  destruct (rows df2 !! i) as [r'|] eqn:Hr'.
  - destruct (H1 _ _ _ Hr Hr') as [Hd1 Hc1].
    destruct (H2 _ _ _ Hr' Hr'') as [Hd2 Hc2].
    split; [congruence|]. intros l Hl.
    apply not_elem_of_app in Hl as [Hl1 Hl2].
    by rewrite Hc2, Hc1.
  - apply lookup_ge_None in Hr'. apply lookup_lt_Some in Hr. lia.
Qed.

(** The five statements of the indicator annotation, one by one. *)
Lemma annotate_inv ta p data0 data' :
  annotate ta p data0 = ok data' ->
  exists sma hma rsi previous d1 d2 d3 d4 current prior,
    d1 = setitem data0 "SMA" sma /\
    d2 = setitem d1 "HMA" hma /\
    d3 = setitem d2 "RSI" rsi /\
    d4 = setitem d3 "Previous_RSI" previous /\
    getitem_float d4 "RSI" = inr current /\
    getitem_float d4 "Previous_RSI" = inr prior /\
    data' = setitem d4 "UpSlope" (CBool <$> series_gt current prior).
Proof.
  unfold annotate. intros H. run_inv. do 10 eexists. eauto 10.
Qed.

Lemma annotate_preserved ta p data0 data' :
  annotate ta p data0 = ok data' ->
  preserved ["SMA"; "HMA"; "RSI"; "Previous_RSI"; "UpSlope"] data0 data'.
Proof.
  intros H. apply annotate_inv in H
    as (sma & hma & rsi & previous & d1 & d2 & d3 & d4 & current & prior
        & -> & -> & -> & -> & _ & _ & ->).
  eapply (preserved_trans ["SMA"]); [apply preserved_setitem|].
  eapply (preserved_trans ["HMA"]); [apply preserved_setitem|].
  eapply (preserved_trans ["RSI"]); [apply preserved_setitem|].
  eapply (preserved_trans ["Previous_RSI"]); apply preserved_setitem.
Qed.

Lemma annotate_rising ta p data0 data' i r :
  annotate ta p data0 = ok data' ->
  rows data' !! i = Some r -> rising_cell r.2.
Proof.
  intros H Hr. apply annotate_inv in H
    as (sma & hma & rsi & previous & d1 & d2 & d3 & d4 & current & prior
        & _ & _ & _ & _ & Hcur & Hpri & ->).
  apply setitem_lookup in Hr as (r0 & Hr0 & ->).
  apply getitem_float_lookup in Hcur as [Hlen1 Hcur].
  apply getitem_float_lookup in Hpri as [Hlen2 Hpri].
  destruct (Hcur _ _ Hr0) as (x & Hx & Hgx).
  destruct (Hpri _ _ Hr0) as (y & Hy & Hgy).
  exists x, y. simpl. rewrite !getfloat_insert_ne by done.
  split; [done|]. split; [done|].
  rewrite lookup_insert_eq. unfold series_gt.
  rewrite list_lookup_fmap, lookup_zip_with, Hx, Hy. simpl. reflexivity.
Qed.

Lemma shift_lookup n xs i :
  0 <= n -> (i < length xs)%nat ->
  shift n xs !! i =
    if decide (i < Z.to_nat n)%nat then Some Float.nan
    else xs !! (i - Z.to_nat n)%nat.
Proof.
  intros Hn Hi. unfold shift.
  rewrite (proj2 (Z.leb_le 0 n)) by done.
  rewrite lookup_take_lt by done.
  case_decide as Hlt.
  - rewrite lookup_app_l by (by rewrite length_replicate).
    by apply lookup_replicate_2.
  - rewrite lookup_app_r by (rewrite length_replicate; lia).
    by rewrite length_replicate.
Qed.

(** Line 131: the prior value of a bar is the oscillator of the bar
    [slope_lookback] rows above it, NaN on the first rows. *)
Lemma annotate_previous ta p data0 data' i r :
  annotate ta p data0 = ok data' ->
  0 <= slope_lookback p ->
  rows data' !! i = Some r ->
  let n := Z.to_nat (slope_lookback p) in
  ((i < n)%nat /\ getfloat r.2 "Previous_RSI" = ok Float.nan) \/
  ((n <= i)%nat /\
   exists r0, rows data' !! (i - n)%nat = Some r0 /\
     getfloat r.2 "Previous_RSI" = getfloat r0.2 "RSI").
Proof.
  intros H Hn Hr n. unfold annotate in H.
  apply bindR_ok in H as (close1 & _ & H).
  apply bindR_ok in H as (close2 & _ & H).
  apply bindR_ok in H as (close3 & _ & H).
  apply bindR_ok in H as (rsi & Hrsi & H).
  apply bindR_ok in H as (current & _ & H).
  apply bindR_ok in H as (prior & _ & H).
  injection H as <-.
  set (d3 := setitem _ "RSI" _) in *.
  apply getitem_float_lookup in Hrsi as [Hlen Hrsi].
  apply setitem_lookup in Hr as (r4 & Hr4 & ->).
  apply setitem_lookup in Hr4 as (r3 & Hr3 & ->). simpl.
  rewrite getfloat_insert_ne by done.
  assert (Hi : (i < length rsi)%nat).
  { rewrite Hlen. by eapply lookup_lt_Some. }
  rewrite list_lookup_fmap, getfloat_insert_float.
  rewrite shift_lookup by done. fold n.
  case_decide as Hlt.
  - left. done.
  - right. split; [lia|].
    destruct (lookup_lt_is_Some_2 (rows d3) (i - n)%nat) as [r0 Hr0].
    { apply lookup_lt_Some in Hr3. lia. }
    destruct (Hrsi _ _ Hr0) as (x & Hx & Hgx).
    eexists. split.
    + apply (setitem_lookup_Some _ "Previous_RSI"
               (CFloat <$> shift (slope_lookback p) rsi)) in Hr0.
      apply (setitem_lookup_Some _ "UpSlope"
               (CBool <$> series_gt current prior)) in Hr0.
      exact Hr0.
    + simpl. rewrite 2!getfloat_insert_ne by done. rewrite Hgx, Hx. reflexivity.
Qed.

(** ** Tables: sorting and grouping *)

Lemma insert_row_elem r l x : x ∈ insert_row r l <-> x = r \/ x ∈ l.
Proof.
  induction l as [|r' l IH]; simpl.
  - rewrite list_elem_of_singleton, elem_of_nil. tauto.
  - destruct (r.1 <=? r'.1).
    + rewrite elem_of_cons. tauto.
    + rewrite !elem_of_cons, IH. tauto.
Qed.

Lemma sort_rows_elem l x : x ∈ sort_rows l <-> x ∈ l.
Proof.
  unfold sort_rows. induction l as [|r l IH]; simpl; [done|].
  rewrite insert_row_elem, elem_of_cons, IH. tauto.
Qed.

Lemma sort_rows_sorted l : Sorted Z.le (fst <$> l) -> sort_rows l = l.
Proof.
  unfold sort_rows. induction l as [|r l IH]; simpl; [done|].
  intros Hs. apply Sorted_inv in Hs as [Hs Hhd].
  rewrite IH by done. destruct l as [|r' l]; simpl; [done|].
  apply HdRel_inv in Hhd. apply Z.leb_le in Hhd. by rewrite Hhd.
Qed.

Lemma groupby_rows df label groups k weekly_data r :
  groupby df label = inr groups ->
  (k, weekly_data) ∈ groups -> r ∈ rows weekly_data -> r ∈ rows df.
Proof.
  unfold groupby. destruct (bool_decide _); [|discriminate].
  intros H Hk Hr. run_inv.
  apply list_elem_of_fmap in Hk as (k' & Heq & _).
  unfold group_of in Heq. injection Heq as -> ->. simpl in Hr.
  apply list_elem_of_fmap in Hr as ([k0 r0] & -> & Hin).
  apply list_elem_of_filter in Hin as [_ Hin]. simpl.
  apply list_elem_of_lookup in Hin as [i Hi].
  apply mapR_lookup in Hres as [Hlen Hall].
  destruct (lookup_lt_is_Some_2 (rows df) i) as [r1 Hr1].
  { apply lookup_lt_Some in Hi. lia. }
  destruct (Hall _ _ Hr1) as (y & Hy & Hf). run_inv.
  assert (r1 = r0) as -> by congruence.
  by eapply list_elem_of_lookup_2.
Qed.

Lemma preserved_labels written df df' :
  preserved written df df' -> fst <$> rows df' = fst <$> rows df.
Proof.
  intros [Hlen H]. apply list_eq. intros i. rewrite !list_lookup_fmap.
  destruct (rows df !! i) as [r|] eqn:Hr.
  - destruct (lookup_lt_is_Some_2 (rows df') i) as [r' Hr'].
    { apply lookup_lt_Some in Hr. lia. }
    rewrite Hr'. simpl. f_equal. by destruct (H _ _ _ Hr Hr').
  - apply lookup_ge_None in Hr.
    rewrite (proj2 (lookup_ge_None (rows df') i)) by lia. done.
Qed.

(** ** The oscillator-rising gate (C8) *)

Lemma rising_cell_insert (row : Series) label c :
  label <> "RSI" -> label <> "Previous_RSI" -> label <> "UpSlope" ->
  rising_cell row -> rising_cell (<[label := c]> row).
Proof.
  intros H1 H2 H3 (x & y & Hx & Hy & Hu). exists x, y.
  rewrite !getfloat_insert_ne by done. rewrite lookup_insert_ne by done.
  done.
Qed.

Lemma stage_indicators_inv ta p st st1 :
  stage_indicators ta p st = ok st1 ->
  exists annotated,
    annotate ta p (data st) = ok annotated /\ data st1 = sort_index annotated.
Proof. unfold stage_indicators. intros H. run_inv. eauto. Qed.

Lemma stage_partition_inv st st2 :
  stage_partition st = ok st2 ->
  data st2 = add_week_start (data st) /\
  groupby (add_week_start (data st)) "Week Start" = ok (grouped st2).
Proof. unfold stage_partition. intros H. run_inv. eauto. Qed.

(** Every bar the weekly loop reads carries the cell computed at line 132. *)
Lemma partition_rising ta p bars st1 st2 k weekly_data j row :
  stage_indicators ta p (downloaded bars) = ok st1 ->
  stage_partition st1 = ok st2 ->
  (k, weekly_data) ∈ grouped st2 ->
  (j, row) ∈ rows weekly_data ->
  rising_cell row.
Proof.
  intros H1 H2 Hk Hr.
  apply stage_indicators_inv in H1 as (annotated & Ha & Hd1).
  apply stage_partition_inv in H2 as (Hd2 & Hg).
  rewrite Hd1 in Hg.
  pose proof (groupby_rows _ _ _ _ _ _ Hg Hk Hr) as Hin.
  apply list_elem_of_lookup in Hin as [i Hi].
  apply setitem_lookup in Hi as (r0 & Hr0 & Heq).
  injection Heq as -> ->.
  refine (rising_cell_insert _ _ _ _ _ _ _); try done.
  apply list_elem_of_lookup_2 in Hr0. simpl in Hr0.
  apply (proj1 (sort_rows_elem _ _)) in Hr0.
  apply list_elem_of_lookup in Hr0 as [i0 Hi0].
  exact (annotate_rising _ _ _ _ _ _ Ha Hi0).
Qed.

Lemma not_rising x y : Float.eqv x y -> (x ># y) = false.
Proof.
  destruct x as [a|], y as [b|]; simpl; try done.
  intros Heq. unfold Float.gt, Float.cmp.
  apply negb_false_iff. apply Qle_bool_iff. rewrite Heq. apply Qle_refl.
Qed.

(** With the gate enabled, a true indicator condition has read a true
    oscillator-rising cell. *)
Lemma indicators_need_rising p row :
  use_rsi_slope p = true ->
  indicators_condition_met p row = ok true ->
  exists u, row !! "UpSlope" = Some u /\ truthy u = true.
Proof.
  intros Hslope. unfold indicators_condition_met. rewrite Hslope. simpl.
  intros H. apply bindR_ok in H as (c1 & _ & H).
  destruct c1; simpl in H; [|discriminate].
  apply bindR_ok in H as (c2 & _ & H).
  destruct c2; simpl in H; [|discriminate].
  apply bindR_ok in H as (c3 & Hu & H).
  destruct c3; simpl in H; [|discriminate].
  apply bindR_ok in Hu as (u & Hu & Ht). unfold getcell in Hu.
  destruct (row !! "UpSlope") as [u'|]; [|discriminate].
  injection Hu as ->. injection Ht as Ht. eauto.
Qed.

Lemma stage_indicators_rows ta p bars st1 :
  Sorted Z.le (fst <$> rows bars) ->
  stage_indicators ta p (downloaded bars) = ok st1 ->
  exists annotated,
    annotate ta p bars = ok annotated /\ rows (data st1) = rows annotated.
Proof.
  intros Hsorted H.
  apply stage_indicators_inv in H as (annotated & Ha & ->). simpl in Ha.
  exists annotated. split; [done|]. simpl.
  apply sort_rows_sorted.
  exact (eq_ind_r (Sorted Z.le) Hsorted
           (preserved_labels _ _ _ (annotate_preserved _ _ _ _ Ha))).
Qed.

(** C8: with the gate enabled, the entry requires the current oscillator
    strictly above the prior one.  The prior value of a bar is the
    oscillator [slope_lookback] bars earlier (NaN on the first bars), for a
    table in ascending date order; the oscillator-rising cell of every bar
    the weekly loop reads is the strict comparison of the two; so on a bar
    whose oscillator equals the prior value the cell is false and a bar
    step that starts with no trade open ends with no trade open, whatever
    the price and the weekday. *)
Theorem flat_oscillator_blocks_entry ta p bars st1 st2 :
  stage_indicators ta p (downloaded bars) = ok st1 ->
  stage_partition st1 = ok st2 ->
  (Sorted Z.le (fst <$> rows bars) -> 0 <= slope_lookback p ->
   forall i r, rows (data st1) !! i = Some r ->
     let n := Z.to_nat (slope_lookback p) in
     ((i < n)%nat /\ getfloat r.2 "Previous_RSI" = ok Float.nan) \/
     ((n <= i)%nat /\
      exists r0, rows (data st1) !! (i - n)%nat = Some r0 /\
        getfloat r.2 "Previous_RSI" = getfloat r0.2 "RSI")) /\
  (forall k weekly_data j row current prior v g v' stop g',
     (k, weekly_data) ∈ grouped st2 ->
     (j, row) ∈ rows weekly_data ->
     getfloat row "RSI" = ok current ->
     getfloat row "Previous_RSI" = ok prior ->
     Float.eqv current prior ->
     use_rsi_slope p = true ->
     trade_entry_date v = None ->
     bar_step p j row v g = inr ((v', stop), g') ->
     row !! "UpSlope" = Some (CBool (current ># prior)) /\
     (current ># prior) = false /\
     v' = v /\ stop = false).
Proof.
  intros H1 H2. split.
  { intros Hsorted Hn i r Hr.
    destruct (stage_indicators_rows _ _ _ _ Hsorted H1) as (annotated & Ha & Heq).
    rewrite Heq in *. by eapply annotate_previous. }
  intros k weekly_data j row current prior v g v' stop g'
    Hk Hr Hcur Hpri Heq Hslope Hnone Hstep.
  destruct (partition_rising _ _ _ _ _ _ _ _ _ H1 H2 Hk Hr)
    as (x & y & Hx & Hy & Hu).
  assert (x = current) as -> by (unfold ok in *; congruence).
  assert (y = prior) as -> by (unfold ok in *; congruence).
  pose proof (not_rising _ _ Heq) as Hflat.
  split; [done|]. split; [done|].
  apply bar_step_inv in Hstep as (o & v1 & v2 & tp & _ & _ & E1 & E2 & E3).
  apply entry_check_inv in E1 as [->|(_ & _ & Hind & _)].
  - unfold boost_check in E2. rewrite Hnone in E2. simpl in E2.
    injection E2 as <- <-.
    unfold exit_check in E3. rewrite Hnone in E3. simpl in E3.
    injection E3 as <- <-. done.
  - apply indicators_need_rising in Hind as (u & Hu' & Ht); [|done].
    rewrite Hu in Hu'. injection Hu' as <-. simpl in Ht. congruence.
Qed.

(** ** What the stages do to the provider's table (C9) *)

Lemma setitem_columns df label values :
  label ∈ columns (setitem df label values) /\
  forall l, l ∈ columns df -> l ∈ columns (setitem df label values).
Proof.
  unfold setitem. simpl. case_bool_decide as Hin.
  - done.
  - split; [|intros l Hl]; apply elem_of_app; [right|left]; [|done].
    apply list_elem_of_singleton. done.
Qed.

Lemma annotate_columns ta p data0 data' label :
  annotate ta p data0 = ok data' ->
  label ∈ indicator_columns -> label ∈ columns data'.
Proof.
  intros H Hl. apply annotate_inv in H
    as (sma & hma & rsi & previous & d1 & d2 & d3 & d4 & current & prior
        & -> & -> & -> & -> & _ & _ & ->).
  unfold indicator_columns in Hl.
  repeat (apply elem_of_cons in Hl as [->|Hl]);
    [| | | | | by apply elem_of_nil in Hl];
    repeat first [ apply (proj1 (setitem_columns _ _ _))
                 | apply (proj2 (setitem_columns _ _ _)) ].
Qed.

(** C9, refuted as stated: the indicator stage and the partition stage
    return the provider's table changed. *)
Lemma stages_write_the_table :
  ~ leaves_table_unchanged (stage_indicators warming_up script_params) /\
  ~ leaves_table_unchanged stage_partition.
Proof.
  split; intros H.
  - assert (E : stage_indicators warming_up script_params (downloaded two_bars)
                = ok two_bars_annotated) by (vm_compute; reflexivity).
    specialize (H _ _ E). apply (f_equal columns) in H.
    vm_compute in H. discriminate.
  - assert (E : stage_partition (downloaded two_bars) = ok two_bars_partitioned)
      by (vm_compute; reflexivity).
    specialize (H _ _ E). apply (f_equal columns) in H.
    vm_compute in H. discriminate.
Qed.

Lemma stage_indicators_preserved ta p bars st1 :
  Sorted Z.le (fst <$> rows bars) ->
  stage_indicators ta p (downloaded bars) = ok st1 ->
  preserved indicator_columns bars (data st1).
Proof.
  intros Hsorted H.
  apply stage_indicators_inv in H as (annotated & Ha & ->). simpl in Ha.
  pose proof (annotate_preserved _ _ _ _ Ha) as Hp.
  unfold sort_index, preserved. simpl.
  rewrite sort_rows_sorted; [exact Hp|].
  exact (eq_ind_r (Sorted Z.le) Hsorted (preserved_labels _ _ _ Hp)).
Qed.

Lemma stage_indicators_columns ta p bars st1 label :
  stage_indicators ta p (downloaded bars) = ok st1 ->
  label ∈ indicator_columns -> label ∈ columns (data st1).
Proof.
  intros H Hl.
  apply stage_indicators_inv in H as (annotated & Ha & ->). simpl.
  by eapply annotate_columns.
Qed.

Lemma stage_partition_preserved st st2 :
  stage_partition st = ok st2 ->
  preserved week_columns (data st) (data st2) /\
  "Week Start" ∈ columns (data st2).
Proof.
  intros H. apply stage_partition_inv in H as [-> _].
  unfold add_week_start, week_columns. split.
  - apply preserved_setitem.
  - exact (proj1 (setitem_columns _ _ _)).
Qed.

Lemma stage_simulate_data p st g st' g' :
  stage_simulate p st g = inr (st', g') -> data st' = data st.
Proof. unfold stage_simulate. intros H. run_inv. done. Qed.

Lemma stage_aggregate_data : leaves_table_unchanged stage_aggregate.
Proof. intros st st'. unfold stage_aggregate. intros H. run_inv. done. Qed.

Lemma stage_report_data p : leaves_table_unchanged (stage_report p).
Proof. intros st st'. unfold stage_report. intros H. run_inv. done. Qed.

(** C9, amended: the indicator stage and the partition stage write the
    provider's table in place.  On a table in ascending date order the
    indicator stage adds the five indicator columns, and the partition
    stage adds the week column (on any table); both keep the rows, their
    labels and every other cell.  The simulation, the aggregation and the
    report leave the table as it is. *)
Theorem table_written_in_place ta p bars :
  Sorted Z.le (fst <$> rows bars) ->
  (forall st1,
     stage_indicators ta p (downloaded bars) = ok st1 ->
     preserved indicator_columns bars (data st1) /\
     forall label, label ∈ indicator_columns -> label ∈ columns (data st1)) /\
  (forall st st2,
     stage_partition st = ok st2 ->
     preserved week_columns (data st) (data st2) /\
     "Week Start" ∈ columns (data st2)) /\
  (forall st g st' g',
     stage_simulate p st g = inr (st', g') -> data st' = data st) /\
  leaves_table_unchanged stage_aggregate /\
  leaves_table_unchanged (stage_report p).
Proof.
  intros Hsorted. split; [|split; [|split; [|split]]].
  - intros st1 H. split.
    + by apply (stage_indicators_preserved ta p).
    + intros label Hl. by eapply stage_indicators_columns.
  - apply stage_partition_preserved.
  - apply stage_simulate_data.
  - apply stage_aggregate_data.
  - apply stage_report_data.
Qed.

(** ** The theorems at concrete inputs *)


Lemma one_trade_per_week_witness :
  (exists t, week script_params gap_down_week [] midpoint
             = inr ([] ++ [t], midpoint_after 2)) /\
  (length ([] : list Trade) + length [(mon, gap_down_week)] = 1)%nat /\
  entry_check script_params tue monday_bar.2 (fl 10)
    {| trade_entry_date := Some mon; trade_exit_date := None;
       trade_entry_price := Some (fl 10); trade_exit_price := None;
       trade_entry_rsi := Some (CFloat (fl 60));
       increased_take_profit := false; trade_made := true |}
  = ok {| trade_entry_date := Some mon; trade_exit_date := None;
          trade_entry_price := Some (fl 10); trade_exit_price := None;
          trade_entry_rsi := Some (CFloat (fl 60));
          increased_take_profit := false; trade_made := true |}.
Proof.
  destruct (one_trade_per_week script_params) as (Hweek & Hweeks & Hentry & Hloop).
  split; [|split].
  - let r := eval vm_compute in (week script_params gap_down_week [] midpoint) in
    lazymatch r with
    | inr (?ts, _) =>
        assert (Hrun : week script_params gap_down_week [] midpoint
                       = inr (ts, midpoint_after 2)) by (vm_compute; reflexivity);
        destruct (Hweek _ _ _ _ _ Hrun) as [Heq|[t Heq]];
          [discriminate Heq | exists t; rewrite <- Heq; exact Hrun]
    end.
  - reflexivity.
  - apply Hentry. simpl. eauto.
Defined.




Lemma table_written_in_place_witness :
  Sorted Z.le (fst <$> rows two_bars) /\
  exists st1,
    stage_indicators warming_up script_params (downloaded two_bars) = ok st1 /\
    preserved indicator_columns two_bars (data st1) /\
    "UpSlope" ∈ columns (data st1).
Proof.
  assert (Hsorted : Sorted Z.le (fst <$> rows two_bars)).
  { repeat constructor. vm_compute. discriminate. }
  split; [exact Hsorted|].
  destruct (table_written_in_place warming_up script_params two_bars Hsorted)
    as (Hind & _).
  assert (E : stage_indicators warming_up script_params (downloaded two_bars)
              = ok two_bars_annotated) by (vm_compute; reflexivity).
  exists two_bars_annotated. split; [exact E|].
  destruct (Hind _ E) as [Hp Hc]. split; [exact Hp|].
  apply Hc. unfold indicator_columns. rewrite !elem_of_cons. tauto.
Defined.

Lemma flat_oscillator_blocks_entry_witness :
  stage_indicators flat_oscillator script_params (downloaded three_bars)
    = ok flat_st1 /\
  stage_partition flat_st1 = ok flat_st2 /\
  (mon, flat_week) ∈ grouped flat_st2 /\
  (wed, flat_wednesday) ∈ rows flat_week /\
  getfloat flat_wednesday "RSI" = ok (fl 60) /\
  getfloat flat_wednesday "Previous_RSI" = ok (fl 60) /\
  price_condition_met script_params flat_wednesday (fl 10.21) = ok true /\
  days_condition_met script_params wed = true /\
  flat_wednesday !! "UpSlope" = Some (CBool (fl 60 ># fl 60)) /\
  (fl 60 ># fl 60) = false /\
  bar_step script_params wed flat_wednesday week_init midpoint
    = inr ((week_init, false), advance midpoint) /\
  exists tuesday wednesday,
    rows (data flat_st1) !! 1%nat = Some tuesday /\
    rows (data flat_st1) !! 2%nat = Some wednesday /\
    getfloat wednesday.2 "Previous_RSI" = getfloat tuesday.2 "RSI".
Proof.
  assert (H1 : stage_indicators flat_oscillator script_params
                 (downloaded three_bars) = ok flat_st1)
    by (vm_compute; reflexivity).
  assert (H2 : stage_partition flat_st1 = ok flat_st2)
    by (vm_compute; reflexivity).
  assert (Hk : (mon, flat_week) ∈ grouped flat_st2)
    by (apply (list_elem_of_lookup_2 _ 0%nat); vm_compute; reflexivity).
  assert (Hr : (wed, flat_wednesday) ∈ rows flat_week)
    by (apply (list_elem_of_lookup_2 _ 2%nat); vm_compute; reflexivity).
  assert (Hc : getfloat flat_wednesday "RSI" = ok (fl 60))
    by (vm_compute; reflexivity).
  assert (Hp : getfloat flat_wednesday "Previous_RSI" = ok (fl 60))
    by (vm_compute; reflexivity).
  assert (Hstep : bar_step script_params wed flat_wednesday week_init midpoint
                  = inr ((week_init, false), advance midpoint))
    by (vm_compute; reflexivity).
  assert (Hsorted : Sorted Z.le (fst <$> rows three_bars)).
  { repeat constructor; vm_compute; discriminate. }
  destruct (flat_oscillator_blocks_entry flat_oscillator script_params
              three_bars flat_st1 flat_st2 H1 H2) as [Hprev Hgate].
  destruct (Hgate mon flat_week wed flat_wednesday (fl 60) (fl 60) week_init
              midpoint week_init false (advance midpoint) Hk Hr Hc Hp
              (Qeq_refl 60) eq_refl eq_refl Hstep)
    as (Hu & Hflat & _ & _).
  destruct (lookup_lt_is_Some_2 (rows (data flat_st1)) 2%nat) as [wednesday Hw].
  { vm_compute. lia. }
  destruct (Hprev Hsorted ltac:(vm_compute; discriminate) 2%nat wednesday Hw)
    as [[Hlt _]|(_ & tuesday & Ht & Heq)].
  { vm_compute in Hlt. lia. }
  split; [exact H1|]. split; [exact H2|]. split; [exact Hk|].
  split; [exact Hr|]. split; [exact Hc|]. split; [exact Hp|].
  split; [vm_compute; reflexivity|]. split; [vm_compute; reflexivity|].
  split; [exact Hu|]. split; [exact Hflat|]. split; [exact Hstep|].
  exists tuesday, wednesday. split; [exact Ht|]. split; [exact Hw | exact Heq].
Defined.

(** ** The calendar week of a bar (lines 144-151) *)

Lemma weekday_range d : 0 <= weekday d < 7.
Proof. unfold weekday. apply Z.mod_pos_bound. lia. Qed.

Lemma week_start_in_week d : in_week (week_start d) d.
Proof.
  unfold in_week, week_start. pose proof (weekday_range d) as Hr.
  split; [|lia]. unfold weekday in *.
  replace (d - (d + 3) mod 7 + 3) with ((d + 3) - (d + 3) mod 7) by lia.
  rewrite Zminus_mod, Zmod_mod, Z.sub_diag. reflexivity.
Qed.

Lemma in_week_unique k d : in_week k d -> k = week_start d.
Proof.
  unfold in_week, week_start, weekday. intros [Hk Hd].
  assert (E : (d + 3) mod 7 = d - k).
  { replace (d + 3) with ((d - k) + (k + 3)) by lia.
    rewrite Zplus_mod, Hk, Z.add_0_r, Zmod_mod. apply Z.mod_small. lia. }
  lia.
Qed.

(** ** Grouping *)

Lemma insert_key_elem k l x : x ∈ insert_key k l <-> x = k \/ x ∈ l.
Proof.
  induction l as [|k' l IH]; simpl.
  - rewrite list_elem_of_singleton, elem_of_nil. tauto.
  - destruct (k <? k') eqn:E1; [rewrite !elem_of_cons; tauto|].
    destruct (k =? k') eqn:E2.
    + apply Z.eqb_eq in E2 as ->. rewrite !elem_of_cons. tauto.
    + rewrite !elem_of_cons, IH. tauto.
Qed.

Lemma insert_key_sorted k l :
  StronglySorted Z.lt l -> StronglySorted Z.lt (insert_key k l).
Proof.
  induction 1 as [|k' l Hs IH Hall]; simpl.
  - repeat constructor.
  - destruct (k <? k') eqn:E1.
    + apply Z.ltb_lt in E1. constructor; [by constructor|].
      constructor; [done|]. eapply Forall_impl; [exact Hall|]. simpl. lia.
    + destruct (k =? k') eqn:E2; [by constructor|].
      apply Z.ltb_ge in E1. apply Z.eqb_neq in E2.
      constructor; [done|]. apply Forall_forall. intros x Hx.
      apply insert_key_elem in Hx as [->|Hx]; [lia|].
      rewrite Forall_forall in Hall. by apply Hall.
Qed.

Lemma sorted_keys_sorted ks : StronglySorted Z.lt (sorted_keys ks).
Proof.
  unfold sorted_keys. induction ks as [|k ks IH]; simpl; [constructor|].
  by apply insert_key_sorted.
Qed.

Lemma sorted_keys_elem ks x : x ∈ sorted_keys ks <-> x ∈ ks.
Proof.
  unfold sorted_keys. induction ks as [|k ks IH]; simpl; [done|].
  rewrite insert_key_elem, elem_of_cons, IH. tauto.
Qed.

Lemma mapR_fmap {A B} (f : A -> Res B) (h : A -> B) l :
  (forall x, x ∈ l -> f x = ok (h x)) -> mapR f l = ok (h <$> l).
Proof.
  induction l as [|a l IH]; simpl; intros H; [done|].
  rewrite H by apply list_elem_of_here. simpl.
  rewrite IH; [done|]. intros x Hx. apply H. by apply list_elem_of_further.
Qed.

Lemma filter_keyed {A} (key : A -> Z) (k : Z) (l : list A) :
  snd <$> filter (fun kr : Z * A => kr.1 = k) ((fun r => (key r, r)) <$> l)
  = filter (fun r => key r = k) l.
Proof.
  induction l as [|a l IH]; [done|]. rewrite fmap_cons.
  destruct (decide (key a = k)) as [E|E].
  - rewrite !filter_cons_True by done. rewrite fmap_cons. simpl. by rewrite IH.
  - rewrite !filter_cons_False by done. exact IH.
Qed.

(** The table after line 145, row by row. *)
Lemma add_week_start_rows df :
  rows (add_week_start df)
  = (fun r => (r.1, <["Week Start" := CTime (week_start r.1)]> r.2)) <$> rows df.
Proof.
  unfold add_week_start, setitem. simpl. apply list_eq. intros i.
  rewrite list_lookup_imap, !list_lookup_fmap.
  destruct (rows df !! i) as [r|]; simpl; done.
Qed.

Lemma partition_groups st st2 :
  stage_partition st = ok st2 ->
  grouped st2 =
    (fun k => (k, {| columns := columns (data st2);
                     rows := filter (fun r => week_start r.1 = k) (rows (data st2)) |}))
    <$> sorted_keys ((fun r => week_start r.1) <$> rows (data st2)).
Proof.
  intros H. apply stage_partition_inv in H as [-> Hg].
  unfold groupby in Hg.
  rewrite bool_decide_eq_true_2 in Hg
    by exact (proj1 (setitem_columns _ _ _)).
  rewrite (mapR_fmap _ (fun r => (week_start r.1, r))) in Hg.
  - simpl in Hg. injection Hg as <-.
    rewrite <- list_fmap_compose. unfold group_of.
    apply list_fmap_ext. intros i k _. simpl. f_equal. f_equal.
    apply filter_keyed.
  - intros r Hr. rewrite add_week_start_rows in Hr.
    apply list_elem_of_fmap in Hr as (r0 & -> & _). simpl.
    unfold time_key, getcell. rewrite lookup_insert_eq. reflexivity.
Qed.

(** X1: the partition stage puts every bar in the group of its calendar
    week and in no other.  The groups come in strictly ascending order of
    their week start, none is empty, each holds exactly the bars of its
    week in table order, every bar of a group lies in the seven days that
    start on the group's Monday, and [total_weeks] counts the groups. *)
Theorem weeks_partition_the_bars st st2 :
  stage_partition st = ok st2 ->
  StronglySorted Z.lt (fst <$> grouped st2) /\
  (forall k weekly_data,
     (k, weekly_data) ∈ grouped st2 ->
     rows weekly_data <> [] /\
     rows weekly_data = filter (fun r => week_start r.1 = k) (rows (data st2)) /\
     forall r, r ∈ rows weekly_data -> in_week k r.1) /\
  (forall r, r ∈ rows (data st2) ->
     exists weekly_data,
       (week_start r.1, weekly_data) ∈ grouped st2 /\ r ∈ rows weekly_data) /\
  total_weeks st2 = Z.of_nat (length (grouped st2)).
Proof.
  intros H. pose proof (partition_groups _ _ H) as Hg.
  split; [|split; [|split]].
  - rewrite Hg, <- list_fmap_compose.
    rewrite <- (list_fmap_id (sorted_keys _)).
    rewrite <- list_fmap_compose. simpl.
    erewrite list_fmap_ext; [|intros; reflexivity].
    rewrite list_fmap_id. apply sorted_keys_sorted.
  - intros k wd Hk. rewrite Hg in Hk.
    apply list_elem_of_fmap in Hk as (k' & Heq & Hk'). injection Heq as -> ->.
    simpl. apply (proj1 (sorted_keys_elem _ _)) in Hk'.
    apply list_elem_of_fmap in Hk' as (r & Hr & Hin).
    split; [|split; [done|]].
    + intros Hnil. assert (Hr' : r ∈ filter (fun r => week_start r.1 = k') (rows (data st2))).
      { apply list_elem_of_filter. done. }
      rewrite Hnil in Hr'. by apply elem_of_nil in Hr'.
    + intros r' Hr'. apply list_elem_of_filter in Hr' as [<- _].
      apply week_start_in_week.
  - intros r Hr. eexists. split.
    + rewrite Hg. apply list_elem_of_fmap. exists (week_start r.1).
      split; [reflexivity|]. apply (proj2 (sorted_keys_elem _ _)).
      apply list_elem_of_fmap. eauto.
    + simpl. apply list_elem_of_filter. done.
  - unfold stage_partition in H. run_inv. reflexivity.
Qed.

Lemma weeks_partition_the_bars_witness :
  StronglySorted Z.lt (fst <$> grouped two_bars_partitioned) /\
  total_weeks two_bars_partitioned
    = Z.of_nat (length (grouped two_bars_partitioned)).
Proof.
  assert (E : stage_partition (downloaded two_bars) = ok two_bars_partitioned)
    by (vm_compute; reflexivity).
  destruct (weeks_partition_the_bars _ _ E) as (Hs & _ & _ & Hn).
  split; [exact Hs | exact Hn].
Defined.

(** ** Sorting (line 135) *)

Lemma insert_row_sorted r l :
  Sorted Z.le (fst <$> l) -> Sorted Z.le (fst <$> insert_row r l).
Proof.
  induction l as [|r' l IH]; simpl; intros Hs.
  - repeat constructor.
  - destruct (_ <=? _) eqn:E.
    + apply Z.leb_le in E. simpl. constructor; [done|]. by constructor.
    + apply Z.leb_gt in E. apply Sorted_inv in Hs as [Hs Hhd].
      simpl. constructor; [by apply IH|].
      destruct l as [|r'' l]; simpl.
      * constructor. lia.
      * destruct (_ <=? _); simpl; constructor; [lia|].
        by apply HdRel_inv in Hhd.
Qed.

Lemma insert_row_perm r l : insert_row r l ≡ₚ r :: l.
Proof.
  induction l as [|r' l IH]; simpl; [done|].
  destruct (_ <=? _); [done|]. rewrite IH. apply Permutation_swap.
Qed.

Lemma sort_rows_is_sorted l : Sorted Z.le (fst <$> sort_rows l).
Proof.
  unfold sort_rows. induction l as [|r l IH]; simpl; [constructor|].
  by apply insert_row_sorted.
Qed.

Lemma sort_rows_perm l : sort_rows l ≡ₚ l.
Proof.
  unfold sort_rows. induction l as [|r l IH]; simpl; [done|].
  rewrite insert_row_perm. by rewrite IH.
Qed.

(** X2: whatever the order of the provider's bars, the table that leaves
    the indicator stage is in ascending date order and holds the
    annotated rows, each once; a table that is already in order is left
    as it is. *)
Theorem indicator_stage_sorts ta p st st1 :
  stage_indicators ta p st = ok st1 ->
  Sorted Z.le (fst <$> rows (data st1)) /\
  exists annotated,
    annotate ta p (data st) = ok annotated /\
    rows (data st1) ≡ₚ rows annotated /\
    (Sorted Z.le (fst <$> rows annotated) -> rows (data st1) = rows annotated).
Proof.
  intros H. apply stage_indicators_inv in H as (annotated & Ha & ->).
  split; [apply sort_rows_is_sorted|].
  exists annotated. split; [done|]. split; [apply sort_rows_perm|].
  apply sort_rows_sorted.
Qed.

Lemma indicator_stage_sorts_witness :
  Sorted Z.le (fst <$> rows (data two_bars_annotated)).
Proof.
  assert (E : stage_indicators warming_up script_params (downloaded two_bars)
              = ok two_bars_annotated) by (vm_compute; reflexivity).
  exact (proj1 (indicator_stage_sorts _ _ _ _ E)).
Defined.

(** ** The generator *)

Lemma advance_by_0 g : advance_by 0 g = g.
Proof. destruct g as [d n]. unfold advance_by. simpl. f_equal. lia. Qed.

Lemma advance_by_S n g : advance_by n (advance g) = advance_by (S n) g.
Proof. unfold advance_by, advance. simpl. f_equal. lia. Qed.

Lemma advance_advance_by n g : advance (advance_by n g) = advance_by (S n) g.
Proof. unfold advance_by, advance. simpl. f_equal. lia. Qed.

Lemma next_draw_advance_by n g : next_draw (advance_by n g) = draws g (pos g + n)%nat.
Proof. reflexivity. Qed.

(** ** One bar, case by case *)

Lemma exit_check_inv j row target v v' stop :
  exit_check j row target v = ok (v', stop) ->
  (stop = false /\ v' = v) \/
  (stop = true /\ is_Some (trade_entry_date v) /\
   exists high, getfloat row "High" = ok high /\ (high >=# target) = true /\
   v' = {| trade_entry_date := trade_entry_date v;
           trade_exit_date := Some j;
           trade_entry_price := trade_entry_price v;
           trade_exit_price := Some target;
           trade_entry_rsi := trade_entry_rsi v;
           increased_take_profit := increased_take_profit v;
           trade_made := trade_made v |}).
Proof.
  unfold exit_check. case_bool_decide as Hin; [|intros [= <- <-]; by left].
  intros H. apply bindR_ok in H as (high & Hh & H).
  destruct (high >=# target) eqn:E; injection H as <- <-; [|by left].
  right. eauto 10.
Qed.

Lemma boost_check_inv p row target v v' target' :
  boost_check p row target v = ok (v', target') ->
  (v' = v /\ target' = target) \/
  (is_Some (trade_entry_date v) /\ increased_take_profit v = false /\
   exists high entry,
     getfloat row "High" = ok high /\ trade_entry_price v = Some entry /\
     (high >=# entry *# fl (1 + take_profit_percentage p / 2)) = true /\
     target' = entry *# fl (1 + take_profit_percentage p + take_profit_increase p) /\
     v' = {| trade_entry_date := trade_entry_date v;
             trade_exit_date := trade_exit_date v;
             trade_entry_price := trade_entry_price v;
             trade_exit_price := trade_exit_price v;
             trade_entry_rsi := trade_entry_rsi v;
             increased_take_profit := true;
             trade_made := trade_made v |}).
Proof.
  unfold boost_check. case_bool_decide as Hin; simpl;
    [|intros [= <- <-]; by left].
  destruct (increased_take_profit v) eqn:Hinc; simpl;
    [intros [= <- <-]; by left|].
  intros H. apply bindR_ok in H as (high & Hh & H).
  apply bindR_ok in H as (entry & He & H). apply need_ok in He.
  destruct (_ >=# _) eqn:E; injection H as <- <-; [|by left].
  right. split; [done|]. split; [done|]. exists high, entry. done.
Qed.

Lemma entry_check_consistent p j row limit_price v v' :
  entry_check p j row limit_price v = ok v' -> consistent v -> consistent v'.
Proof.
  intros H Hc. apply entry_check_inv in H as [->|(Hn & _ & _ & _ & rsi & _ & ->)];
    [done|].
  unfold consistent in *. rewrite Hn in Hc. simpl.
  destruct Hc as (_ & _ & _ & _ & -> & ->). split; [done|].
  split; [eauto|]. split; [eauto|]. split; intros [? ?]; discriminate.
Qed.

Lemma boost_check_consistent p row target v v' target' :
  boost_check p row target v = ok (v', target') -> consistent v -> consistent v'.
Proof.
  intros H Hc. apply boost_check_inv in H
    as [[-> _]|([d Hd] & _ & high & entry & _ & _ & _ & _ & ->)]; [done|].
  unfold consistent in *. simpl. rewrite Hd in *. done.
Qed.

Lemma exit_check_consistent j row target v v' stop :
  exit_check j row target v = ok (v', stop) -> consistent v -> consistent v'.
Proof.
  intros H Hc. apply exit_check_inv in H
    as [[_ ->]|(_ & [d Hd] & high & _ & _ & ->)]; [done|].
  unfold consistent in *. simpl. rewrite Hd in *.
  destruct Hc as (? & ? & ? & _). repeat split; eauto.
Qed.

Lemma bar_step_consistent p j row v g v' stop g' :
  bar_step p j row v g = inr ((v', stop), g') -> consistent v -> consistent v'.
Proof.
  intros H Hc.
  apply bar_step_inv in H as (o & v1 & v2 & tp & _ & _ & H1 & H2 & H3).
  eauto using entry_check_consistent, boost_check_consistent,
    exit_check_consistent.
Qed.

Lemma week_loop_consistent p bars : forall v g v' g',
  week_loop p bars v g = inr (v', g') -> consistent v -> consistent v'.
Proof.
  induction bars as [|[j row] rest IH]; simpl; intros v g v' g' H Hc.
  - run_inv. done.
  - apply bind_ok in H as ([v1 stop] & g1 & Hstep & H).
    apply bar_step_consistent in Hstep; [|done].
    destruct stop; [run_inv; done | eauto].
Qed.

Lemma week_init_consistent : consistent week_init.
Proof. unfold consistent. simpl. done. Qed.


(** ** A readable week never raises *)



(** ** The bars before the entry, the entry bar, and the rest *)

Lemma entry_check_cases p j row limit_price v v' :
  trade_entry_date v = None ->
  entry_check p j row limit_price v = ok v' ->
  exists price indicators,
    price_condition_met p row limit_price = ok price /\
    indicators_condition_met p row = ok indicators /\
    if price && indicators && days_condition_met p j
    then exists rsi, row !! "RSI" = Some rsi /\
           v' = {| trade_entry_date := Some j;
                   trade_exit_date := trade_exit_date v;
                   trade_entry_price := Some limit_price;
                   trade_exit_price := trade_exit_price v;
                   trade_entry_rsi := Some rsi;
                   increased_take_profit := increased_take_profit v;
                   trade_made := true |}
    else v' = v.
Proof.
  intros Hnone. unfold entry_check. rewrite Hnone. intros H.
  apply bindR_ok in H as (price & Hp & H).
  apply bindR_ok in H as (ind & Hi & H).
  exists price, ind. split; [done|]. split; [done|].
  destruct (price && ind && days_condition_met p j).
  - apply bindR_ok in H as (rsi & Hr & H). injection H as <-.
    exists rsi. split; [|done]. unfold getcell in Hr.
    destruct (row !! "RSI"); [|discriminate]. by injection Hr as ->.
  - by injection H as <-.
Qed.

Lemma bar_step_seeking p j row v g v' stop g' :
  bar_step p j row v g = inr ((v', stop), g') ->
  trade_entry_date v = None ->
  (~ enters p j row (next_draw g) /\ v' = v /\ stop = false) \/
  (enters p j row (next_draw g) /\
   trade_entry_date v' = Some j /\
   trade_entry_rsi v' = row !! "RSI" /\
   exists open_price,
     getfloat row "Open" = ok open_price /\
     trade_entry_price v'
       = Some (limit_price_of p open_price
                 (slippage_of (open_max_slippage p) (next_draw g)))).
Proof.
  intros H Hnone.
  apply bar_step_inv in H as (o & v1 & v2 & tp & Ho & _ & H1 & H2 & H3).
  destruct (entry_check_cases _ _ _ _ _ _ Hnone H1)
    as (price & ind & Hp & Hi & Hcase).
  destruct (price && ind && days_condition_met p j) eqn:E.
  - right. destruct Hcase as (rsi & Hr & ->).
    apply andb_prop in E as [E Hd]. apply andb_prop in E as [-> ->].
    split; [exists o; done|].
    apply boost_check_same in H2 as ((Hd2 & Hq2 & Hr2 & _) & _).
    apply exit_check_same in H3 as ((Hd3 & Hq3 & Hr3 & _) & _).
    simpl in Hd2, Hq2, Hr2. split; [congruence|]. split; [congruence|].
    exists o. split; [done|]. unfold slippage_of. congruence.
  - left. subst v1.
    unfold boost_check in H2. rewrite Hnone in H2. simpl in H2.
    injection H2 as <- <-.
    unfold exit_check in H3. rewrite Hnone in H3. simpl in H3.
    injection H3 as <- <-. split; [|done].
    intros (o' & Ho' & Hp' & Hi' & Hd').
    assert (o' = o) as -> by (unfold ok in *; congruence).
    unfold slippage_of in Hp'.
    rewrite Hp in Hp'. rewrite Hi in Hi'.
    injection Hp' as ->. injection Hi' as ->. rewrite Hd' in E. discriminate.
Qed.

(** The loop from a state with no trade: either no bar enters, or the
    bars split into those that do not enter, the bar that does, and the
    bars after it. *)
Lemma week_loop_seeking p bars : forall v g v' g',
  week_loop p bars v g = inr (v', g') ->
  trade_entry_date v = None ->
  (v' = v /\ g' = advance_by (length bars) g /\
   forall i j row, bars !! i = Some (j, row) ->
     ~ enters p j row (draws g (pos g + i)%nat))
  \/
  (exists pre j row post v1 stop,
     bars = pre ++ (j, row) :: post /\
     (forall i j' row', pre !! i = Some (j', row') ->
        ~ enters p j' row' (draws g (pos g + i)%nat)) /\
     enters p j row (draws g (pos g + length pre)%nat) /\
     bar_step p j row v (advance_by (length pre) g)
       = inr ((v1, stop), advance_by (S (length pre)) g) /\
     trade_entry_date v1 = Some j /\
     if stop then v' = v1 /\ g' = advance_by (S (length pre)) g
     else week_loop p post v1 (advance_by (S (length pre)) g) = inr (v', g')).
Proof.
  induction bars as [|[j row] rest IH]; simpl; intros v g v' g' H Hnone.
  - run_inv. left. split; [done|]. split; [by rewrite advance_by_0|].
    intros i j row Hi. by rewrite lookup_nil in Hi.
  - apply bind_ok in H as ([v1 stop] & g1 & Hstep & H).
    pose proof Hstep as Hinv.
    apply bar_step_inv in Hinv as (_ & _ & _ & _ & _ & -> & _).
    destruct (bar_step_seeking _ _ _ _ _ _ _ _ Hstep Hnone)
      as [(Hno & -> & ->)|(Hyes & Hd & _)].
    + destruct (IH _ _ _ _ H Hnone)
        as [(-> & -> & Hall)|(pre & j' & row' & post & v2 & stop & -> & Hpre
                              & Hent & Hbar & Hd & Hrest)].
      * left. split; [done|]. split; [by rewrite advance_by_S|].
        intros [|i] j' row' Hi; simpl in Hi.
        -- injection Hi as <- <-. by rewrite Nat.add_0_r.
        -- specialize (Hall _ _ _ Hi). simpl in Hall.
           by replace (pos g + S i)%nat with (S (pos g + i)) by lia.
      * right. exists ((j, row) :: pre), j', row', post, v2, stop.
        simpl in *. rewrite !advance_by_S in Hbar.
        rewrite !advance_by_S in Hrest.
        split; [done|]. split; [|split; [|split; [done|split; [done|done]]]].
        -- intros [|i] j'' row'' Hi; simpl in Hi.
           ++ injection Hi as <- <-. by rewrite Nat.add_0_r.
           ++ specialize (Hpre _ _ _ Hi).
              by replace (pos g + S i)%nat with (S (pos g + i)) by lia.
        -- by replace (pos g + S (length pre))%nat
             with (S (pos g + length pre)) by lia.
    + right. exists [], j, row, rest, v1, stop. simpl.
      rewrite advance_by_0. rewrite Nat.add_0_r.
      split; [done|]. split; [intros i ? ? Hi; by rewrite lookup_nil in Hi|].
      split; [done|]. split.
      { rewrite Hstep. f_equal. f_equal. unfold advance_by, advance. simpl.
        f_equal. lia. }
      split; [done|].
      assert (Ea : advance g = advance_by 1 g).
      { unfold advance_by, advance. simpl. f_equal. lia. }
      rewrite <- Ea. destruct stop; [by run_inv|done].
Qed.

(** ** The end of the week, case by case *)

Lemma week_inv p weekly_data trades g trades' g' :
  week p weekly_data trades g = inr (trades', g') ->
  exists v g1 v2,
    week_loop p (rows weekly_data) week_init g = inr (v, g1) /\
    forced_exit p weekly_data v g1 = inr (v2, g') /\
    record_trade v2 trades = ok trades'.
Proof.
  unfold week. intros H.
  apply bind_ok in H as (v & g1 & Hloop & H).
  apply bind_ok in H as (v2 & g2 & Hforced & H).
  apply lift_ok in H as [Hrec ->]. eauto 10.
Qed.

Lemma forced_exit_inv p weekly_data v g v2 g2 :
  forced_exit p weekly_data v g = inr (v2, g2) ->
  (v2 = v /\ g2 = g /\
   (trade_entry_date v = None \/ is_Some (trade_exit_date v))) \/
  (is_Some (trade_entry_date v) /\ trade_exit_date v = None /\
   exists d row close,
     last (rows weekly_data) = Some (d, row) /\
     getfloat row "Close" = ok close /\
     g2 = advance g /\
     v2 = {| trade_entry_date := trade_entry_date v;
             trade_exit_date := Some d;
             trade_entry_price := trade_entry_price v;
             trade_exit_price :=
               Some (close +# fl (slippage_of (close_max_slippage p) (next_draw g)));
             trade_entry_rsi := trade_entry_rsi v;
             increased_take_profit := increased_take_profit v;
             trade_made := trade_made v |}).
Proof.
  unfold forced_exit.
  case_bool_decide as Hin; simpl.
  - case_bool_decide as Hout; simpl.
    + intros H. right. split; [done|]. split; [done|].
      apply bind_ok in H as ([d row] & g1 & Hl & H).
      apply lift_ok in Hl as [Hl ->].
      apply bind_ok in H as (s & g3 & Hs & H).
      rewrite uniform_run in Hs. injection Hs as <- <-.
      apply bind_ok in H as (close & g4 & Hc & H).
      apply lift_ok in Hc as [Hc ->]. apply ret_ok in H as [-> ->].
      unfold last_row in Hl. destruct (last (rows weekly_data)) as [r|] eqn:E;
        [|discriminate]. injection Hl as ->.
      exists d, row, close. done.
    + intros H. apply ret_ok in H as [-> ->]. left.
      split; [done|]. split; [done|]. right.
      destruct (trade_exit_date v); [eauto|done].
  - intros H. apply ret_ok in H as [-> ->]. left.
    split; [done|]. split; [done|]. left.
    destruct (trade_entry_date v); [|done]. exfalso. apply Hin. eauto.
Qed.

Lemma forced_exit_same p weekly_data v g v2 g2 :
  forced_exit p weekly_data v g = inr (v2, g2) ->
  same_entry v v2 /\ increased_take_profit v2 = increased_take_profit v.
Proof.
  intros H. apply forced_exit_inv in H
    as [(-> & _)|(_ & _ & d & row & close & _ & _ & _ & ->)].
  - split; [apply same_entry_refl | done].
  - unfold same_entry. simpl. done.
Qed.

Lemma bar_step_exit p j row v g v' stop g' :
  bar_step p j row v g = inr ((v', stop), g') ->
  trade_exit_date v = None ->
  (stop = false /\ trade_exit_date v' = None) \/
  (stop = true /\ trade_exit_date v' = Some j /\
   exists high target,
     getfloat row "High" = ok high /\
     trade_exit_price v' = Some target /\
     (high >=# target) = true).
Proof.
  intros H Hnone.
  apply bar_step_inv in H as (o & v1 & v2 & tp & _ & _ & H1 & H2 & H3).
  assert (E1 : trade_exit_date v1 = None).
  { apply entry_check_inv in H1 as [->|(_ & _ & _ & _ & rsi & _ & ->)]; done. }
  apply boost_check_same in H2 as (_ & E2 & _).
  apply exit_check_inv in H3 as [[-> ->]|(-> & _ & high & Hh & Hge & ->)].
  - left. split; [done|]. congruence.
  - right. split; [done|]. split; [done|]. exists high, tp. done.
Qed.

(** The loop while no exit is taken: it reads every bar, or it stops at
    the first bar whose high reaches the target of that bar. *)
Lemma week_loop_exit p bars : forall v g v' g',
  week_loop p bars v g = inr (v', g') ->
  trade_exit_date v = None ->
  (trade_exit_date v' = None /\ g' = advance_by (length bars) g) \/
  (exists i e row high target,
     bars !! i = Some (e, row) /\
     trade_exit_date v' = Some e /\
     trade_exit_price v' = Some target /\
     getfloat row "High" = ok high /\
     (high >=# target) = true /\
     g' = advance_by (S i) g).
Proof.
  induction bars as [|[j row] rest IH]; simpl; intros v g v' g' H Hnone.
  - run_inv. left. split; [done|]. by rewrite advance_by_0.
  - apply bind_ok in H as ([v1 stop] & g1 & Hstep & H).
    pose proof Hstep as Hinv.
    apply bar_step_inv in Hinv as (_ & _ & _ & _ & _ & -> & _).
    destruct (bar_step_exit _ _ _ _ _ _ _ _ Hstep Hnone)
      as [(-> & Hn1)|(-> & He & high & tp & Hh & Hp & Hge)].
    + destruct (IH _ _ _ _ H Hn1)
        as [(Hn & ->)|(i & e & row' & high & tp & Hi & He & Hp & Hh & Hge & ->)].
      * left. split; [done|]. by rewrite advance_by_S.
      * right. exists (S i), e, row', high, tp. simpl.
        rewrite advance_by_S. done.
    + run_inv. right. exists 0%nat, j, row, high, tp. simpl.
      split; [done|]. split; [done|]. split; [done|]. split; [done|].
      split; [done|]. unfold advance_by, advance. simpl. f_equal. lia.
Qed.

(** ** The anatomy of a recorded trade *)

Lemma record_trade_new v trades t :
  record_trade v trades = ok (trades ++ [t]) ->
  trade_made v = true /\
  trade_entry_date v = Some (Entry_Date t) /\
  trade_exit_date v = Some (Exit_Date t) /\
  trade_entry_price v = Some (Entry_Price t) /\
  trade_exit_price v = Some (Exit_Price t) /\
  trade_entry_rsi v = Some (Entry_RSI t) /\
  TP_Boost t = increased_take_profit v.
Proof.
  intros H. apply record_trade_shape in H as [H|(t' & H & _ & _ & Hrest)].
  - exfalso. apply (f_equal length) in H. rewrite length_app in H.
    simpl in H. lia.
  - apply app_inv_head in H. injection H as ->. exact Hrest.
Qed.

Lemma week_trade_anatomy p weekly_data trades g t g' :
  week p weekly_data trades g = inr (trades ++ [t], g') ->
  exists pre j row post v1 stop v g1 v2,
    rows weekly_data = pre ++ (j, row) :: post /\
    (forall i j' row', pre !! i = Some (j', row') ->
       ~ enters p j' row' (draws g (pos g + i)%nat)) /\
    enters p j row (draws g (pos g + length pre)%nat) /\
    bar_step p j row week_init (advance_by (length pre) g)
      = inr ((v1, stop), advance_by (S (length pre)) g) /\
    (if stop then v = v1 /\ g1 = advance_by (S (length pre)) g
     else week_loop p post v1 (advance_by (S (length pre)) g) = inr (v, g1)) /\
    forced_exit p weekly_data v g1 = inr (v2, g') /\
    same_entry v1 v /\
    consistent v1 /\ consistent v /\
    Entry_Date t = j /\
    trade_entry_date v1 = Some j /\
    trade_entry_price v1 = Some (Entry_Price t) /\
    trade_entry_rsi v1 = Some (Entry_RSI t) /\
    trade_exit_date v2 = Some (Exit_Date t) /\
    trade_exit_price v2 = Some (Exit_Price t) /\
    TP_Boost t = increased_take_profit v.
Proof.
  intros H. apply week_inv in H as (v & g1 & v2 & Hloop & Hforced & Hrec).
  apply record_trade_new in Hrec as (Hmade & Hed & Hxd & Hep & Hxp & Her & Hb).
  destruct (forced_exit_same _ _ _ _ _ _ Hforced) as [(Sd & Sp & Sr & Sm) Sinc].
  pose proof (week_loop_consistent _ _ _ _ _ _ Hloop week_init_consistent) as Hcv.
  destruct (week_loop_seeking _ _ _ _ _ _ Hloop eq_refl)
    as [(-> & _)|(pre & j & row & post & v1 & stop & Hrows & Hpre & Hent
                  & Hbar & Hd & Hrest)].
  { simpl in Sm. congruence. }
  assert (Hc1 : consistent v1).
  { eapply bar_step_consistent; [exact Hbar | exact week_init_consistent]. }
  assert (S1 : same_entry v1 v).
  { destruct stop.
    - destruct Hrest as [-> _]. apply same_entry_refl.
    - eapply week_loop_entered; [|exact Hrest]. rewrite Hd. eauto. }
  destruct S1 as (S1d & S1p & S1r & S1m).
  exists pre, j, row, post, v1, stop, v, g1, v2.
  repeat split; try done; try congruence.
Qed.

(** ** Where a recorded trade comes from *)

Lemma recorded_entry_lemma p weekly_data trades g t g' :
  week p weekly_data trades g = inr (trades ++ [t], g') ->
  exists i row open_price,
    rows weekly_data !! i = Some (Entry_Date t, row) /\
    enters p (Entry_Date t) row (draws g (pos g + i)%nat) /\
    (forall i' j' row', (i' < i)%nat ->
       rows weekly_data !! i' = Some (j', row') ->
       ~ enters p j' row' (draws g (pos g + i')%nat)) /\
    getfloat row "Open" = ok open_price /\
    Entry_Price t
      = limit_price_of p open_price
          (slippage_of (open_max_slippage p) (draws g (pos g + i)%nat)) /\
    row !! "RSI" = Some (Entry_RSI t) /\
    weekday (Entry_Date t) ∈ allowed_days p.
Proof.
  intros H. apply week_trade_anatomy in H
    as (pre & j & row & post & v1 & stop & v & g1 & v2 & Hrows & Hpre & Hent
        & Hbar & _ & _ & _ & _ & _ & -> & _ & Hp & Hr & _).
  destruct (bar_step_seeking _ _ _ _ _ _ _ _ Hbar eq_refl)
    as [(_ & -> & _)|(_ & _ & Hrsi & o & Ho & Hprice)]; [discriminate|].
  exists (length pre), row, o.
  split; [rewrite Hrows; by apply list_lookup_middle|].
  split; [done|]. split.
  { intros i' j' row' Hlt Hi'. apply (Hpre i' j' row').
    rewrite Hrows, lookup_app_l in Hi' by done. done. }
  split; [done|]. split.
  { rewrite next_draw_advance_by in Hprice. congruence. }
  split; [congruence|].
  destruct Hent as (_ & _ & _ & _ & Hday).
  unfold days_condition_met in Hday. by apply bool_decide_eq_true in Hday.
Qed.

(** X3: a recorded trade was entered on the first bar of its week that
    passed the entry test of lines 174-190 with the limit price of that
    bar: the record carries that bar's date, that limit price (the bar's
    open plus the offset plus the slippage of the bar's own draw) and the
    bar's RSI cell, and the bar's weekday is an allowed one. *)
Theorem recorded_entry_is_first_passing_bar p weekly_data trades g t g' :
  week p weekly_data trades g = inr (trades ++ [t], g') ->
  exists i row open_price,
    rows weekly_data !! i = Some (Entry_Date t, row) /\
    enters p (Entry_Date t) row (draws g (pos g + i)%nat) /\
    (forall i' j' row', (i' < i)%nat ->
       rows weekly_data !! i' = Some (j', row') ->
       ~ enters p j' row' (draws g (pos g + i')%nat)) /\
    getfloat row "Open" = ok open_price /\
    Entry_Price t
      = limit_price_of p open_price
          (slippage_of (open_max_slippage p) (draws g (pos g + i)%nat)) /\
    row !! "RSI" = Some (Entry_RSI t) /\
    weekday (Entry_Date t) ∈ allowed_days p.
Proof. apply recorded_entry_lemma. Qed.

Lemma advance_by_add m n g : advance_by m (advance_by n g) = advance_by (n + m) g.
Proof. unfold advance_by. simpl. f_equal. lia. Qed.

(** The bar of the entry and the bar of the exit of a recorded trade. *)
Lemma week_trade_bars p weekly_data trades g t g' :
  week p weekly_data trades g = inr (trades ++ [t], g') ->
  exists i k row_in row_out,
    rows weekly_data !! i = Some (Entry_Date t, row_in) /\
    rows weekly_data !! k = Some (Exit_Date t, row_out) /\
    (i <= k)%nat /\
    ((exists high,
        getfloat row_out "High" = ok high /\
        (high >=# Exit_Price t) = true /\
        g' = advance_by (S k) g)
     \/
     (exists close,
        S k = length (rows weekly_data) /\
        getfloat row_out "Close" = ok close /\
        Exit_Price t
          = close +# fl (slippage_of (close_max_slippage p)
                           (draws g (pos g + length (rows weekly_data))%nat)) /\
        g' = advance_by (S (length (rows weekly_data))) g)).
Proof.
  intros H. apply week_trade_anatomy in H
    as (pre & j & row & post & v1 & stop & v & g1 & v2 & Hrows & _ & _
        & Hbar & Hrest & Hforced & Hsame & Hc1 & Hcv & <- & Hd1 & _ & _ & Hxd & Hxp & _).
  assert (Hi : rows weekly_data !! length pre = Some (Entry_Date t, row)).
  { rewrite Hrows. by apply list_lookup_middle. }
  assert (Hlen : length (rows weekly_data) = (length pre + S (length post))%nat).
  { rewrite Hrows, length_app. reflexivity. }
  assert (Hcases :
    (is_Some (trade_exit_date v) /\
     exists k row_out high target,
       rows weekly_data !! k = Some (Exit_Date t, row_out) /\
       (length pre <= k)%nat /\
       trade_exit_date v = Some (Exit_Date t) /\
       trade_exit_price v = Some target /\
       getfloat row_out "High" = ok high /\ (high >=# target) = true /\
       g1 = advance_by (S k) g /\ v2 = v /\ g' = g1)
    \/ (trade_exit_date v = None /\ g1 = advance_by (length (rows weekly_data)) g)).
  { destruct (bar_step_exit _ _ _ _ _ _ _ _ Hbar eq_refl)
      as [(-> & Hn1)|(-> & He & high & tp & Hh & Hp & Hge)].
    - destruct (week_loop_exit _ _ _ _ _ _ Hrest Hn1)
        as [(Hn & ->)|(i & e & row' & high & tp & Hpi & He & Hp & Hh & Hge & ->)].
      + right. split; [done|]. rewrite advance_by_add. f_equal. lia.
      + left. split; [rewrite He; eauto|].
        apply forced_exit_inv in Hforced
          as [(-> & -> & _)|(_ & Hnone & _)]; [|congruence].
        rewrite He in Hxd. injection Hxd as ->.
        exists (S (length pre) + i)%nat, row', high, tp.
        split.
        { rewrite Hrows. rewrite lookup_app_r by lia.
          replace (S (length pre) + i - length pre)%nat with (S i) by lia.
          done. }
        split; [lia|]. split; [done|]. split; [done|]. split; [done|].
        split; [done|]. split; [|done].
        rewrite advance_by_add. f_equal. lia.
    - destruct Hrest as [-> ->]. left. split; [rewrite He; eauto|].
      apply forced_exit_inv in Hforced
        as [(-> & -> & _)|(_ & Hnone & _)]; [|congruence].
      rewrite He in Hxd. injection Hxd as Hj.
      exists (length pre), row, high, tp. rewrite <- Hj.
      split; [done|]. split; [lia|]. done. }
  destruct Hcases as [(_ & k & row_out & high & target & Hk & Hle & _ & Hp & Hh
                       & Hge & -> & -> & ->)|(Hnone & ->)].
  - exists (length pre), k, row, row_out.
    split; [done|]. split; [done|]. split; [done|]. left.
    exists high. rewrite Hp in Hxp. injection Hxp as <-. done.
  - apply forced_exit_inv in Hforced
      as [(_ & _ & [Hd|[? Hx]])|(_ & _ & d & row_out & close & Hlast & Hclose & -> & ->)].
    + destruct Hsame as [Hd' _]. congruence.
    + congruence.
    + simpl in Hxd, Hxp. injection Hxd as ->. injection Hxp as <-.
      rewrite last_lookup in Hlast.
      exists (length pre), (pred (length (rows weekly_data))), row, row_out.
      split; [done|]. split; [done|]. split; [lia|]. right.
      exists close. split; [lia|]. split; [done|]. split; [reflexivity|].
      unfold advance, advance_by. simpl. f_equal. lia.
Qed.

(** X4: a recorded trade is closed in one of two ways.  Either on a bar
    whose high reaches the exit price (the take-profit target of that
    bar), the generator having drawn once per bar up to that bar; or on
    the week's last bar, at its close plus the slippage of one more draw,
    the generator having drawn once per bar and once more. *)
Theorem recorded_exit_is_take_profit_or_close p weekly_data trades g t g' :
  week p weekly_data trades g = inr (trades ++ [t], g') ->
  (exists k row high,
     rows weekly_data !! k = Some (Exit_Date t, row) /\
     getfloat row "High" = ok high /\
     (high >=# Exit_Price t) = true /\
     g' = advance_by (S k) g)
  \/
  (exists row close,
     last (rows weekly_data) = Some (Exit_Date t, row) /\
     getfloat row "Close" = ok close /\
     Exit_Price t
       = close +# fl (slippage_of (close_max_slippage p)
                        (draws g (pos g + length (rows weekly_data))%nat)) /\
     g' = advance_by (S (length (rows weekly_data))) g).
Proof.
  intros H. apply week_trade_bars in H
    as (i & k & row_in & row_out & _ & Hk & _
        & [(high & Hh & Hge & ->)|(close & Hlen & Hc & Hp & ->)]).
  - left. exists k, row_out, high. done.
  - right. exists row_out, close. split; [|done].
    rewrite last_lookup, <- Hlen. done.
Qed.

Lemma sorted_lookup_le (l : list Z) i k a b :
  Sorted Z.le l -> l !! i = Some a -> l !! k = Some b -> (i <= k)%nat -> a <= b.
Proof.
  intros Hs. apply Sorted_StronglySorted in Hs; [|intros x y z; lia].
  revert i k. induction Hs as [|x l Hs IH Hall]; intros i k Hi Hk Hle.
  - by rewrite lookup_nil in Hi.
  - destruct i as [|i], k as [|k]; simpl in *; try lia.
    + injection Hi as <-. injection Hk as <-. lia.
    + injection Hi as <-. rewrite Forall_forall in Hall. apply Hall.
      by eapply list_elem_of_lookup_2.
    + eapply IH; [exact Hi | exact Hk | lia].
Qed.

Lemma trade_dates_in_order_lemma p weekly_data trades g t g' :
  Sorted Z.le (fst <$> rows weekly_data) ->
  week p weekly_data trades g = inr (trades ++ [t], g') ->
  Entry_Date t ∈ fst <$> rows weekly_data /\
  Exit_Date t ∈ fst <$> rows weekly_data /\
  Entry_Date t <= Exit_Date t /\
  0 <= Days_in_Trade t /\
  Days_in_Trade t = Exit_Date t - Entry_Date t.
Proof.
  intros Hs H.
  assert (Hdays : days_formula t).
  { apply week_shape in H as [H|(t' & H & _ & Hd)].
    - exfalso. apply (f_equal length) in H. rewrite length_app in H.
      simpl in H. lia.
    - apply app_inv_head in H. by injection H as ->. }
  apply week_trade_bars in H as (i & k & row_in & row_out & Hi & Hk & Hle & _).
  assert (Hi' : (fst <$> rows weekly_data) !! i = Some (Entry_Date t))
    by (by rewrite list_lookup_fmap, Hi).
  assert (Hk' : (fst <$> rows weekly_data) !! k = Some (Exit_Date t))
    by (by rewrite list_lookup_fmap, Hk).
  pose proof (sorted_lookup_le _ _ _ _ _ Hs Hi' Hk' Hle) as Hord.
  split; [by eapply list_elem_of_lookup_2|].
  split; [by eapply list_elem_of_lookup_2|].
  split; [done|]. split; [|done]. rewrite Hdays. lia.
Qed.

(** X5: in a week whose bars are in ascending date order, a recorded
    trade is entered and closed on bars of that week, the exit not before
    the entry: its days in trade are not negative. *)
Theorem trade_dates_in_order p weekly_data trades g t g' :
  Sorted Z.le (fst <$> rows weekly_data) ->
  week p weekly_data trades g = inr (trades ++ [t], g') ->
  Entry_Date t ∈ fst <$> rows weekly_data /\
  Exit_Date t ∈ fst <$> rows weekly_data /\
  Entry_Date t <= Exit_Date t /\
  0 <= Days_in_Trade t.
Proof.
  intros Hs H.
  destruct (trade_dates_in_order_lemma _ _ _ _ _ _ Hs H)
    as (? & ? & ? & ? & _). done.
Qed.

Lemma sorted_filter_fst (P : Timestamp * Series -> Prop)
    `{forall r, Decision (P r)} (l : list (Timestamp * Series)) :
  Sorted Z.le (fst <$> l) -> Sorted Z.le (fst <$> filter P l).
Proof.
  intros Hs. apply Sorted_StronglySorted in Hs; [|intros x y z; lia].
  apply StronglySorted_Sorted.
  induction l as [|r l IH]; [constructor|].
  rewrite fmap_cons in Hs. apply StronglySorted_inv in Hs as [Hs Hall].
  destruct (decide (P r)).
  - rewrite filter_cons_True by done. rewrite fmap_cons.
    constructor; [by apply IH|].
    apply Forall_forall. intros x Hx. rewrite Forall_forall in Hall.
    apply Hall. apply list_elem_of_fmap in Hx as (y & -> & Hy).
    apply list_elem_of_filter in Hy as [_ Hy]. by apply list_elem_of_fmap_2.
  - rewrite filter_cons_False by done. by apply IH.
Qed.

(** X6: through the script's stages, every recorded trade is entered
    and closed within the calendar week of its group, in this order: its
    days in trade lie between 0 and 6, whatever the order of the
    provider's bars. *)
Theorem trade_stays_within_its_week ta p st st1 st2 k weekly_data trades g t g' :
  stage_indicators ta p st = ok st1 ->
  stage_partition st1 = ok st2 ->
  (k, weekly_data) ∈ grouped st2 ->
  week p weekly_data trades g = inr (trades ++ [t], g') ->
  in_week k (Entry_Date t) /\
  in_week k (Exit_Date t) /\
  Entry_Date t <= Exit_Date t /\
  0 <= Days_in_Trade t <= 6.
Proof.
  intros H1 H2 Hk Hw.
  assert (Hsorted1 : Sorted Z.le (fst <$> rows (data st1))).
  { apply stage_indicators_inv in H1 as (annotated & _ & ->).
    apply sort_rows_is_sorted. }
  pose proof (partition_groups _ _ H2) as Hg.
  assert (Hrows : rows weekly_data
                  = filter (fun r => week_start r.1 = k) (rows (data st2))).
  { rewrite Hg in Hk. apply list_elem_of_fmap in Hk as (k' & Heq & _).
    by injection Heq as -> ->. }
  assert (Hsorted2 : Sorted Z.le (fst <$> rows (data st2))).
  { apply stage_partition_inv in H2 as [-> _]. rewrite add_week_start_rows.
    rewrite <- list_fmap_compose.
    erewrite list_fmap_ext; [exact Hsorted1|]. done. }
  assert (Hsorted : Sorted Z.le (fst <$> rows weekly_data)).
  { rewrite Hrows. by apply sorted_filter_fst. }
  assert (Hin : forall d, d ∈ fst <$> rows weekly_data -> in_week k d).
  { intros d Hd. apply list_elem_of_fmap in Hd as (r & -> & Hr).
    rewrite Hrows in Hr. apply list_elem_of_filter in Hr as [<- _].
    apply week_start_in_week. }
  destruct (trade_dates_in_order_lemma _ _ _ _ _ _ Hsorted Hw)
    as (Hi & Hx & Hle & Hdays & Hformula).
  pose proof (Hin _ Hi) as Hwi. pose proof (Hin _ Hx) as Hwx.
  split; [done|]. split; [done|]. split; [done|].
  unfold in_week in *. rewrite Hformula. lia.
Qed.

(** ** The take-profit target on the entry bar, and the boost *)

(** X7: when the bar that enters a trade also takes profit, the exit
    price is anchored to the entry price: entry * (1 + take-profit) if
    the bar's high stayed below the boost trigger, and
    entry * (1 + take-profit + boost) if it reached it. *)
Theorem exit_on_entry_bar_is_anchored p j row g v' g' :
  bar_step p j row week_init g = inr ((v', true), g') ->
  exists entry high,
    trade_entry_date v' = Some j /\
    trade_exit_date v' = Some j /\
    trade_entry_price v' = Some entry /\
    getfloat row "High" = ok high /\
    (high >=# entry *# fl (1 + take_profit_percentage p / 2))
      = increased_take_profit v' /\
    trade_exit_price v'
      = Some (if increased_take_profit v'
              then entry *# fl (1 + take_profit_percentage p + take_profit_increase p)
              else entry *# fl (1 + take_profit_percentage p)).
Proof.
  intros H.
  apply bar_step_inv in H as (o & v1 & v2 & tp & Ho & _ & H1 & H2 & H3).
  apply exit_check_inv in H3 as [[? _]|(_ & [d Hd2] & high & Hh & Hge & ->)];
    [discriminate|].
  pose proof (boost_check_same _ _ _ _ _ _ H2) as ((Hd & _) & _).
  apply entry_check_inv in H1 as [->|(_ & _ & _ & _ & rsi & _ & ->)].
  { simpl in Hd. congruence. }
  unfold boost_check in H2. simpl in H2. rewrite Hh in H2. simpl in H2.
  match type of H2 with
  | (if ?c then _ else _) = _ => destruct c eqn:E
  end; injection H2 as <- <-; simpl; eexists _, high;
    (split; [done|]); (split; [done|]); (split; [reflexivity|]);
    (split; [done|]); (split; [exact E|]); reflexivity.
Qed.

Lemma exit_on_entry_bar_is_anchored_witness :
  exists v' entry,
    bar_step script_params mon
      (annotated_bar mon 9.99 10.90 9.90 10.80 (fl 60) (fl 55)).2 week_init midpoint
      = inr ((v', true), advance midpoint) /\
    trade_entry_price v' = Some entry /\
    increased_take_profit v' = true /\
    trade_exit_price v' = Some (entry *# fl (1 + 0.07 + 0.01)).
Proof.
  let r := eval vm_compute in
      (bar_step script_params mon
         (annotated_bar mon 9.99 10.90 9.90 10.80 (fl 60) (fl 55)).2
         week_init midpoint) in
  lazymatch r with
  | inr ((?v, _), _) =>
      assert (Hrun : bar_step script_params mon
                (annotated_bar mon 9.99 10.90 9.90 10.80 (fl 60) (fl 55)).2
                week_init midpoint = inr ((v, true), advance midpoint))
        by (vm_compute; reflexivity);
      destruct (exit_on_entry_bar_is_anchored _ _ _ _ _ _ Hrun)
        as (entry & high & _ & _ & He & _ & _ & Hx);
      exists v, entry; split; [exact Hrun|]; split; [exact He|];
      split; [reflexivity|]; exact Hx
  end.
Defined.

Lemma bar_step_boost p j row v g v' stop g' :
  bar_step p j row v g = inr ((v', stop), g') ->
  increased_take_profit v = false ->
  increased_take_profit v' = true ->
  is_Some (trade_entry_date v') /\
  exists high entry,
    getfloat row "High" = ok high /\
    trade_entry_price v' = Some entry /\
    (high >=# entry *# fl (1 + take_profit_percentage p / 2)) = true.
Proof.
  intros H Hf Ht.
  apply bar_step_inv in H as (o & v1 & v2 & tp & _ & _ & H1 & H2 & H3).
  assert (Hf1 : increased_take_profit v1 = false).
  { apply entry_check_inv in H1 as [->|(_ & _ & _ & _ & rsi & _ & ->)]; done. }
  destruct (exit_check_same _ _ _ _ _ _ H3) as ((Hd3 & Hp3 & _) & Hi3).
  apply boost_check_inv in H2
    as [[-> _]|(Hin & _ & high & entry & Hh & He & Hge & _ & ->)];
    [congruence|].
  simpl in *. split; [by rewrite Hd3|].
  exists high, entry. split; [done|]. split; [congruence|done].
Qed.

Lemma week_loop_boost p bars : forall v g v' g',
  week_loop p bars v g = inr (v', g') ->
  increased_take_profit v = false ->
  increased_take_profit v' = true ->
  exists i j row high entry,
    bars !! i = Some (j, row) /\
    getfloat row "High" = ok high /\
    trade_entry_price v' = Some entry /\
    (high >=# entry *# fl (1 + take_profit_percentage p / 2)) = true.
Proof.
  induction bars as [|[j row] rest IH]; simpl; intros v g v' g' H Hf Ht.
  - run_inv. congruence.
  - apply bind_ok in H as ([v1 stop] & g1 & Hstep & H).
    destruct (increased_take_profit v1) eqn:E1.
    + destruct (bar_step_boost _ _ _ _ _ _ _ _ Hstep Hf E1)
        as (Hin & high & entry & Hh & He & Hge).
      exists 0%nat, j, row, high, entry. simpl.
      split; [done|]. split; [done|]. split; [|done].
      destruct stop; [run_inv; done|].
      destruct (week_loop_entered _ _ _ _ _ _ Hin H) as (_ & -> & _). done.
    + destruct stop; [run_inv; congruence|].
      destruct (IH _ _ _ _ H E1 Ht) as (i & j' & row' & high & entry & Hi & Hrest).
      exists (S i), j', row', high, entry. done.
Qed.

(** X8: a recorded trade is flagged as boosted only if some bar of its
    week had a high at or above entry price * (1 + take-profit / 2). *)
Theorem boost_flag_needs_trigger p weekly_data trades g t g' :
  week p weekly_data trades g = inr (trades ++ [t], g') ->
  TP_Boost t = true ->
  exists i j row high,
    rows weekly_data !! i = Some (j, row) /\
    getfloat row "High" = ok high /\
    (high >=# Entry_Price t *# fl (1 + take_profit_percentage p / 2)) = true.
Proof.
  intros H Hb. apply week_inv in H as (v & g1 & v2 & Hloop & Hforced & Hrec).
  apply record_trade_new in Hrec as (_ & _ & _ & Hp & _ & _ & Hflag).
  destruct (forced_exit_same _ _ _ _ _ _ Hforced) as [(_ & Sp & _) Sinc].
  rewrite Hb, Sinc in Hflag. symmetry in Hflag.
  destruct (week_loop_boost _ _ _ _ _ _ Hloop eq_refl Hflag)
    as (i & j & row & high & entry & Hi & Hh & He & Hge).
  exists i, j, row, high. split; [done|]. split; [done|].
  assert (entry = Entry_Price t) as <- by congruence. done.
Qed.

Lemma boost_flag_needs_trigger_witness :
  exists t i j row high,
    week script_params scenario_B_week [] midpoint
      = inr ([] ++ [t], midpoint_after 6) /\
    rows scenario_B_week !! i = Some (j, row) /\
    getfloat row "High" = ok high /\
    (high >=# Entry_Price t *# fl (1 + 0.07 / 2)) = true.
Proof.
  let r := eval vm_compute in (week script_params scenario_B_week [] midpoint) in
  lazymatch r with
  | inr ([?t], _) =>
      assert (Hrun : week script_params scenario_B_week [] midpoint
                     = inr ([] ++ [t], midpoint_after 6))
        by (vm_compute; reflexivity);
      destruct (boost_flag_needs_trigger _ _ _ _ _ _ Hrun eq_refl)
        as (i & j & row & high & Hi & Hh & Hge);
      exists t, i, j, row, high; split; [exact Hrun|];
      split; [exact Hi|]; split; [exact Hh | exact Hge]
  end.
Defined.

(** ** Weeks over readable bars *)








(** ** The table of trades, column by column *)

Lemma mapR_imap {A B C} (f : B -> Res C) (g : nat -> A -> B) (h : A -> C) l :
  (forall i x, f (g i x) = ok (h x)) -> mapR f (imap g l) = ok (h <$> l).
Proof.
  revert g. induction l as [|a l IH]; intros g H; simpl; [done|].
  rewrite H. simpl. rewrite (IH (g ∘ S)); [done|]. intros i x. apply H.
Qed.

Lemma bindR_ret {A B} (x : A) (k : A -> Res B) : bindR (ok x) k = k x.
Proof. reflexivity. Qed.

Lemma mapR_fmap_ok {A B C} (f : B -> Res C) (g : A -> B) (h : A -> C) l :
  (forall x, f (g x) = ok (h x)) -> mapR f (g <$> l) = ok (h <$> l).
Proof.
  intros H. induction l as [|a l IH]; [done|].
  rewrite !fmap_cons. simpl. rewrite H. simpl. by rewrite IH.
Qed.

Lemma trade_dict_profit t : trade_dict t !! "Profit (%)" = Some (CFloat (Profit t)).
Proof. reflexivity. Qed.

Lemma trade_dict_days t :
  trade_dict t !! "Days in Trade" = Some (CInt (Days_in_Trade t)).
Proof. reflexivity. Qed.

Lemma trade_dict_exit_date t :
  trade_dict t !! "Exit Date" = Some (CTime (Exit_Date t)).
Proof. reflexivity. Qed.

Lemma frame_profits trades :
  trades <> [] ->
  getitem_float (frame_of_dicts trades) "Profit (%)" = ok (Profit <$> trades).
Proof.
  intros Hne. destruct trades as [|t0 ts]; [done|].
  unfold getitem_float, getitem.
  rewrite bool_decide_eq_true_2
    by (simpl; unfold trade_columns; rewrite !elem_of_cons; tauto).
  unfold frame_of_dicts, rows.
  rewrite (mapR_imap _ _ (fun t => CFloat (Profit t))).
  - rewrite bindR_ret. by apply mapR_fmap_ok.
  - intros i x. unfold getcell. simpl. by rewrite trade_dict_profit.
Qed.

Lemma frame_days trades :
  trades <> [] ->
  getitem_float (frame_of_dicts trades) "Days in Trade"
  = ok ((fun t => Float.of_Z (Days_in_Trade t)) <$> trades).
Proof.
  intros Hne. destruct trades as [|t0 ts]; [done|].
  unfold getitem_float, getitem.
  rewrite bool_decide_eq_true_2
    by (simpl; unfold trade_columns; rewrite !elem_of_cons; tauto).
  unfold frame_of_dicts, rows.
  rewrite (mapR_imap _ _ (fun t => CInt (Days_in_Trade t))).
  - rewrite bindR_ret. by apply mapR_fmap_ok.
  - intros i x. unfold getcell. simpl. by rewrite trade_dict_days.
Qed.

Lemma frame_rows_lookup trades i :
  rows (frame_of_dicts trades) !! i
  = (fun t => (Z.of_nat i, trade_dict t)) <$> trades !! i.
Proof. unfold frame_of_dicts. simpl. apply list_lookup_imap. Qed.

Lemma frame_labelled trades :
  trades <> [] ->
  exists labelled,
    labelled_floats (frame_of_dicts trades) "Profit (%)" = ok labelled /\
    snd <$> labelled = Profit <$> trades /\
    forall i, labelled !! i = (fun t => (Z.of_nat i, Profit t)) <$> trades !! i.
Proof.
  intros Hne. unfold labelled_floats. rewrite frame_profits by done.
  rewrite bindR_ret. eexists. split; [reflexivity|].
  assert (Hlook : forall i,
    zip (fst <$> rows (frame_of_dicts trades)) (Profit <$> trades) !! i
    = (fun t => (Z.of_nat i, Profit t)) <$> trades !! i).
  { intros i. rewrite lookup_zip_with.
    rewrite !list_lookup_fmap, frame_rows_lookup.
    destruct (trades !! i); done. }
  split; [|exact Hlook].
  apply list_eq. intros i. rewrite !list_lookup_fmap, Hlook.
  destruct (trades !! i); done.
Qed.

Lemma filter_first {A} (P : A -> Prop) `{forall x, Decision (P x)} l x rest :
  filter P l = x :: rest ->
  exists i, l !! i = Some x /\ P x /\
    forall i' y, (i' < i)%nat -> l !! i' = Some y -> ~ P y.
Proof.
  induction l as [|a l IH]; [done|].
  destruct (decide (P a)) as [Ha|Ha].
  - rewrite filter_cons_True by done. intros [= -> <-].
    exists 0%nat. split; [done|]. split; [done|]. intros i' y Hlt. lia.
  - rewrite filter_cons_False by done. intros Hf.
    destruct (IH Hf) as (i & Hi & HP & Hfirst).
    exists (S i). split; [done|]. split; [done|].
    intros [|i'] y Hlt Hy; simpl in Hy.
    + by injection Hy as <-.
    + apply (Hfirst i' y); [lia|done].
Qed.

Lemma loc_frame trades i t column :
  trades !! i = Some t ->
  loc (frame_of_dicts trades) (Z.of_nat i) column = getcell (trade_dict t) column.
Proof.
  intros Ht. unfold loc.
  destruct (filter _ _) as [|r rest] eqn:Hf.
  - exfalso.
    assert (Hin : (Z.of_nat i, trade_dict t)
                  ∈ filter (fun r : Z * Series => r.1 = Z.of_nat i)
                      (rows (frame_of_dicts trades))).
    { apply list_elem_of_filter. split; [done|].
      apply (list_elem_of_lookup_2 _ i). by rewrite frame_rows_lookup, Ht. }
    rewrite Hf in Hin. by apply elem_of_nil in Hin.
  - apply filter_first in Hf as (k & Hk & Hlab & _).
    rewrite frame_rows_lookup in Hk.
    destruct (trades !! k) as [t'|] eqn:Hk'; [|done].
    injection Hk as <-. simpl in Hlab.
    assert (k = i) as -> by lia. by assert (t' = t) as -> by congruence.
Qed.

(** ** Extrema of a series *)

Lemma max2_fold xs : forall acc r,
  foldl max2 acc xs = r ->
  (r = acc \/ r ∈ xs) /\
  (forall a, acc = Some a -> exists b, r = Some b /\ (a <= b)%Q) /\
  (forall x, Some x ∈ xs -> exists b, r = Some b /\ (x <= b)%Q).
Proof.
  induction xs as [|x xs IH]; simpl; intros acc r Hr.
  - subst r. split; [by left|]. split.
    + intros a ->. exists a. split; [done|]. apply Qle_refl.
    + intros y Hy. by apply elem_of_nil in Hy.
  - destruct (IH _ _ Hr) as (Hmem & Hacc & Hall).
    assert (Hstep : (max2 acc x = acc \/ max2 acc x = x) /\
                    (forall a, acc = Some a ->
                       exists b, max2 acc x = Some b /\ (a <= b)%Q) /\
                    (forall a, x = Some a ->
                       exists b, max2 acc x = Some b /\ (a <= b)%Q)).
    { destruct acc as [a|], x as [b|]; simpl.
      - destruct (Qgt_bool b a) eqn:E.
        + apply Qgt_bool_iff in E. split; [by right|]. split.
          * intros ? [= <-]. exists b. split; [done|]. by apply Qlt_le_weak.
          * intros ? [= <-]. exists b. split; [done|]. apply Qle_refl.
        + assert (Hle : (b <= a)%Q).
          { apply Qnot_lt_le. intros Hlt. apply Qgt_bool_iff in Hlt. congruence. }
          split; [by left|]. split.
          * intros ? [= <-]. exists a. split; [done|]. apply Qle_refl.
          * intros ? [= <-]. exists a. done.
      - split; [by left|]. split; [|done].
        intros ? [= <-]. exists a. split; [done|]. apply Qle_refl.
      - split; [by right|]. split; [done|].
        intros ? [= <-]. exists b. split; [done|]. apply Qle_refl.
      - split; [by left|]. done. }
    destruct Hstep as (Hsel & Hsa & Hsx).
    split; [|split].
    + destruct Hmem as [->|Hmem]; [|right; by apply list_elem_of_further].
      destruct Hsel as [->| ->]; [by left|right; apply list_elem_of_here].
    + intros a Ha. destruct (Hsa _ Ha) as (b & Hb & Hab).
      destruct (Hacc _ Hb) as (c & Hc & Hbc). exists c. split; [done|].
      by eapply Qle_trans.
    + intros y Hy. apply elem_of_cons in Hy as [Hy|Hy]; [|by apply Hall].
      destruct (Hsx _ (eq_sym Hy)) as (b & Hb & Hab).
      destruct (Hacc _ Hb) as (c & Hc & Hbc). exists c. split; [done|].
      by eapply Qle_trans.
Qed.

Lemma min2_fold xs : forall acc r,
  foldl min2 acc xs = r ->
  (r = acc \/ r ∈ xs) /\
  (forall a, acc = Some a -> exists b, r = Some b /\ (b <= a)%Q) /\
  (forall x, Some x ∈ xs -> exists b, r = Some b /\ (b <= x)%Q).
Proof.
  induction xs as [|x xs IH]; simpl; intros acc r Hr.
  - subst r. split; [by left|]. split.
    + intros a ->. exists a. split; [done|]. apply Qle_refl.
    + intros y Hy. by apply elem_of_nil in Hy.
  - destruct (IH _ _ Hr) as (Hmem & Hacc & Hall).
    assert (Hstep : (min2 acc x = acc \/ min2 acc x = x) /\
                    (forall a, acc = Some a ->
                       exists b, min2 acc x = Some b /\ (b <= a)%Q) /\
                    (forall a, x = Some a ->
                       exists b, min2 acc x = Some b /\ (b <= a)%Q)).
    { destruct acc as [a|], x as [b|]; simpl.
      - destruct (Qgt_bool a b) eqn:E.
        + apply Qgt_bool_iff in E. split; [by right|]. split.
          * intros ? [= <-]. exists b. split; [done|]. by apply Qlt_le_weak.
          * intros ? [= <-]. exists b. split; [done|]. apply Qle_refl.
        + assert (Hle : (a <= b)%Q).
          { apply Qnot_lt_le. intros Hlt. apply Qgt_bool_iff in Hlt. congruence. }
          split; [by left|]. split.
          * intros ? [= <-]. exists a. split; [done|]. apply Qle_refl.
          * intros ? [= <-]. exists a. done.
      - split; [by left|]. split; [|done].
        intros ? [= <-]. exists a. split; [done|]. apply Qle_refl.
      - split; [by right|]. split; [done|].
        intros ? [= <-]. exists b. split; [done|]. apply Qle_refl.
      - split; [by left|]. done. }
    destruct Hstep as (Hsel & Hsa & Hsx).
    split; [|split].
    + destruct Hmem as [->|Hmem]; [|right; by apply list_elem_of_further].
      destruct Hsel as [->| ->]; [by left|right; apply list_elem_of_here].
    + intros a Ha. destruct (Hsa _ Ha) as (b & Hb & Hab).
      destruct (Hacc _ Hb) as (c & Hc & Hbc). exists c. split; [done|].
      by eapply Qle_trans.
    + intros y Hy. apply elem_of_cons in Hy as [Hy|Hy]; [|by apply Hall].
      destruct (Hsx _ (eq_sym Hy)) as (b & Hb & Hab).
      destruct (Hacc _ Hb) as (c & Hc & Hbc). exists c. split; [done|].
      by eapply Qle_trans.
Qed.

Lemma series_max_spec xs :
  match series_max xs with
  | Some m => Some m ∈ xs /\ forall x, Some x ∈ xs -> (x <= m)%Q
  | None => forall x, Some x ∉ xs
  end.
Proof.
  unfold series_max. destruct (max2_fold xs None _ eq_refl) as (Hmem & _ & Hall).
  destruct (foldl max2 None xs) as [m|] eqn:E.
  - split; [by destruct Hmem|]. intros x Hx.
    destruct (Hall _ Hx) as (b & [= <-] & Hle). done.
  - intros x Hx. by destruct (Hall _ Hx) as (b & Hb & _).
Qed.

Lemma series_min_spec xs :
  match series_min xs with
  | Some m => Some m ∈ xs /\ forall x, Some x ∈ xs -> (m <= x)%Q
  | None => forall x, Some x ∉ xs
  end.
Proof.
  unfold series_min. destruct (min2_fold xs None _ eq_refl) as (Hmem & _ & Hall).
  destruct (foldl min2 None xs) as [m|] eqn:E.
  - split; [by destruct Hmem|]. intros x Hx.
    destruct (Hall _ Hx) as (b & [= <-] & Hle). done.
  - intros x Hx. by destruct (Hall _ Hx) as (b & Hb & _).
Qed.

(** The label of the first row that holds a value present in the series. *)
Lemma first_label_spec m labelled :
  Some m ∈ snd <$> labelled ->
  exists i l x,
    first_label (Some m) labelled = ok l /\
    labelled !! i = Some (l, Some x) /\ (x == m)%Q /\
    forall i' l' y, (i' < i)%nat -> labelled !! i' = Some (l', y) ->
      ~ Float.eqv y (Some m).
Proof.
  intros Hin. unfold first_label.
  destruct (filter _ labelled) as [|[l y] rest] eqn:Hf.
  - exfalso. apply list_elem_of_fmap in Hin as ([l y] & Hy & Hin). simpl in Hy.
    subst y.
    assert (Hin' : (l, Some m) ∈ filter
              (fun lx : Z * Float.t => Float.cmp Qeq_bool lx.2 (Some m) = true)
              labelled).
    { apply list_elem_of_filter. split; [|done]. simpl.
      apply Qeq_bool_iff. apply Qeq_refl. }
    rewrite Hf in Hin'. by apply elem_of_nil in Hin'.
  - apply filter_first in Hf as (i & Hi & HP & Hfirst). simpl in HP.
    destruct y as [x|]; [|discriminate]. simpl in HP.
    apply Qeq_bool_iff in HP.
    exists i, l, x. split; [done|]. split; [done|]. split; [done|].
    intros i' l' y Hlt Hy Heq. apply (Hfirst i' (l', y) Hlt Hy). simpl.
    destruct y as [a|]; simpl in *; [|done]. by apply Qeq_bool_iff.
Qed.

(** ** The aggregates of a list of trades *)

Lemma empty_frame trades : trades <> [] -> empty (frame_of_dicts trades) = false.
Proof. destruct trades; [done|]. reflexivity. Qed.

Lemma frame_length trades :
  length (rows (frame_of_dicts trades)) = length trades.
Proof. unfold frame_of_dicts. simpl. apply length_imap. Qed.

(** The row of an extremum: its position, its trade, its exit date. *)
Lemma frame_first_label trades labelled m :
  (forall i, labelled !! i = (fun t => (Z.of_nat i, Profit t)) <$> trades !! i) ->
  snd <$> labelled = Profit <$> trades ->
  Some m ∈ Profit <$> trades ->
  exists i t x,
    first_label (Some m) labelled = ok (Z.of_nat i) /\
    trades !! i = Some t /\ Profit t = Some x /\ (x == m)%Q /\
    loc (frame_of_dicts trades) (Z.of_nat i) "Exit Date" = ok (CTime (Exit_Date t)) /\
    forall i' t', (i' < i)%nat -> trades !! i' = Some t' ->
      ~ Float.eqv (Profit t') (Some m).
Proof.
  intros Hlook Hsnd Hin. rewrite <- Hsnd in Hin.
  destruct (first_label_spec m labelled Hin) as (i & l & x & Hf & Hi & Hx & Hfirst).
  rewrite Hlook in Hi. destruct (trades !! i) as [t|] eqn:Ht; [|done].
  injection Hi as <- Hp. exists i, t, x.
  split; [done|]. split; [done|]. split; [done|]. split; [done|]. split.
  - rewrite (loc_frame _ _ t) by done. unfold getcell.
    by rewrite trade_dict_exit_date.
  - intros i' t' Hlt Ht'. apply (Hfirst i' (Z.of_nat i') (Profit t') Hlt).
    by rewrite Hlook, Ht'.
Qed.

Lemma aggregate_run trades total_weeks hi lo :
  series_max (Profit <$> trades) = Some hi ->
  series_min (Profit <$> trades) = Some lo ->
  exists t_hi t_lo i_hi i_lo,
    trades !! i_hi = Some t_hi /\ Float.eqv (Profit t_hi) (Some hi) /\
    (forall i' t', (i' < i_hi)%nat -> trades !! i' = Some t' ->
       ~ Float.eqv (Profit t') (Some hi)) /\
    trades !! i_lo = Some t_lo /\ Float.eqv (Profit t_lo) (Some lo) /\
    (forall i' t', (i' < i_lo)%nat -> trades !! i' = Some t' ->
       ~ Float.eqv (Profit t') (Some lo)) /\
    aggregate (frame_of_dicts trades) total_weeks
    = ok {| max_exit_profit := Some (Some hi);
            min_exit_profit := Some (Some lo);
            max_exit_profit_date := Some (CTime (Exit_Date t_hi));
            min_exit_profit_date := Some (CTime (Exit_Date t_lo));
            total_trades := Z.of_nat (length trades);
            winning_trades :=
              Z.of_nat (length (filter (fun x => (x ># fl 0) = true)
                                  (Profit <$> trades)));
            losing_trades :=
              Z.of_nat (length trades)
              - Z.of_nat (length (filter (fun x => (x ># fl 0) = true)
                                    (Profit <$> trades)));
            win_rate :=
              Float.of_Z (Z.of_nat (length (filter (fun x => (x ># fl 0) = true)
                                              (Profit <$> trades))))
              /# Float.of_Z (Z.of_nat (length trades)) *# fl 100;
            average_profit := series_mean (Profit <$> trades);
            profit_per_week :=
              fl (series_sum (Profit <$> trades)) /# Float.of_Z total_weeks;
            average_days_in_trade :=
              series_mean ((fun t => Float.of_Z (Days_in_Trade t)) <$> trades) |}.
Proof.
  intros Hhi Hlo.
  assert (Hne : trades <> []).
  { intros ->. discriminate Hhi. }
  pose proof (series_max_spec (Profit <$> trades)) as Hmax. rewrite Hhi in Hmax.
  pose proof (series_min_spec (Profit <$> trades)) as Hmin. rewrite Hlo in Hmin.
  destruct (frame_labelled trades Hne) as (labelled & Hlab & Hsnd & Hlook).
  destruct (frame_first_label trades labelled hi Hlook Hsnd (proj1 Hmax))
    as (i_hi & t_hi & x_hi & Hfhi & Hthi & Hphi & Hxhi & Hlochi & Hfirsthi).
  destruct (frame_first_label trades labelled lo Hlook Hsnd (proj1 Hmin))
    as (i_lo & t_lo & x_lo & Hflo & Htlo & Hplo & Hxlo & Hloclo & Hfirstlo).
  exists t_hi, t_lo, i_hi, i_lo.
  split; [done|]. split; [by rewrite Hphi|]. split; [done|].
  split; [done|]. split; [by rewrite Hplo|]. split; [done|].
  assert (Hpos : (0 <? Z.of_nat (length trades)) = true).
  { apply Z.ltb_lt. destruct trades; [done|]. simpl. lia. }
  unfold aggregate.
  repeat first
    [ rewrite bindR_ret
    | rewrite (empty_frame _ Hne)
    | progress cbn [negb]
    | rewrite frame_profits by done
    | rewrite frame_days by done
    | rewrite Hlab
    | progress unfold idxmax, idxmin
    | rewrite Hsnd
    | rewrite Hhi
    | rewrite Hlo
    | rewrite Hfhi
    | rewrite Hflo
    | rewrite Hlochi
    | rewrite Hloclo
    | rewrite frame_length
    | rewrite Hpos ].
  reflexivity.
Qed.

Lemma aggregate_needs_profit trades total_weeks s :
  aggregate (frame_of_dicts trades) total_weeks = ok s ->
  exists hi lo,
    series_max (Profit <$> trades) = Some hi /\
    series_min (Profit <$> trades) = Some lo.
Proof.
  intros H.
  destruct trades as [|t0 ts] eqn:Et; [discriminate H|]. rewrite <- Et in *.
  assert (Hne : trades <> []) by (by rewrite Et).
  clear Et.
  destruct (series_max (Profit <$> trades)) as [hi|] eqn:Hhi.
  - exists hi. pose proof (series_max_spec (Profit <$> trades)) as Hmax.
    rewrite Hhi in Hmax. destruct Hmax as [Hin _].
    pose proof (series_min_spec (Profit <$> trades)) as Hmin.
    destruct (series_min (Profit <$> trades)) as [lo|]; [eauto|].
    by apply Hmin in Hin.
  - exfalso. destruct (frame_labelled trades Hne) as (labelled & Hlab & Hsnd & _).
    revert H. unfold aggregate.
    repeat first
      [ rewrite bindR_ret
      | rewrite (empty_frame _ Hne)
      | progress cbn [negb]
      | rewrite frame_profits by done
      | rewrite Hlab
      | progress unfold idxmax
      | rewrite Hsnd
      | rewrite Hhi ].
    discriminate.
Qed.

(** X12: the aggregation and the printed summary complete exactly when
    some trade has a defined profit; the summary then has its fourteen
    lines.  With no trade, or with undefined profits only, they do not
    complete. *)
Theorem summary_completes_iff_a_profit_is_defined p trades total_weeks :
  (exists t x, t ∈ trades /\ Profit t = Some x) <->
  (exists s lines,
     aggregate (frame_of_dicts trades) total_weeks = ok s /\
     print_summary p total_weeks s = ok lines /\
     length lines = 14%nat).
Proof.
  split.
  - intros (t & x & Ht & Hx).
    assert (Hin : Some x ∈ Profit <$> trades).
    { rewrite <- Hx. by apply list_elem_of_fmap_2. }
    pose proof (series_max_spec (Profit <$> trades)) as Hmax.
    pose proof (series_min_spec (Profit <$> trades)) as Hmin.
    destruct (series_max (Profit <$> trades)) as [hi|] eqn:Hhi;
      [|by apply Hmax in Hin].
    destruct (series_min (Profit <$> trades)) as [lo|] eqn:Hlo;
      [|by apply Hmin in Hin].
    destruct (aggregate_run trades total_weeks hi lo Hhi Hlo)
      as (t_hi & t_lo & i_hi & i_lo & _ & _ & _ & _ & _ & _ & Hrun).
    eexists _, _. split; [exact Hrun|]. split; reflexivity.
  - intros (s & lines & H & _).
    destruct (aggregate_needs_profit _ _ _ H) as (hi & lo & Hhi & _).
    pose proof (series_max_spec (Profit <$> trades)) as Hmax.
    rewrite Hhi in Hmax. destruct Hmax as [Hin _].
    apply list_elem_of_fmap in Hin as (t & Ht & Hin). eauto.
Qed.

Lemma summary_completes_iff_a_profit_is_defined_witness :
  exists s lines,
    aggregate (frame_of_dicts sample_trades) 2 = ok s /\
    print_summary script_params 2 s = ok lines /\
    length lines = 14%nat.
Proof.
  apply (proj1 (summary_completes_iff_a_profit_is_defined
                  script_params sample_trades 2)).
  eexists _, 5%Q. split; [apply list_elem_of_here | reflexivity].
Defined.

(** X13: when the aggregation completes, the maximum and the minimum
    exit profit are profits of trades, they bound every defined profit,
    and each is reported with the exit date of the first trade, in the
    order of the list, whose profit equals it. *)
Theorem extrema_are_first_attained trades total_weeks s :
  aggregate (frame_of_dicts trades) total_weeks = ok s ->
  exists hi lo t_hi t_lo i_hi i_lo,
    max_exit_profit s = Some (Some hi) /\
    min_exit_profit s = Some (Some lo) /\
    trades !! i_hi = Some t_hi /\ Float.eqv (Profit t_hi) (Some hi) /\
    max_exit_profit_date s = Some (CTime (Exit_Date t_hi)) /\
    (forall i' t', (i' < i_hi)%nat -> trades !! i' = Some t' ->
       ~ Float.eqv (Profit t') (Some hi)) /\
    trades !! i_lo = Some t_lo /\ Float.eqv (Profit t_lo) (Some lo) /\
    min_exit_profit_date s = Some (CTime (Exit_Date t_lo)) /\
    (forall i' t', (i' < i_lo)%nat -> trades !! i' = Some t' ->
       ~ Float.eqv (Profit t') (Some lo)) /\
    (forall t x, t ∈ trades -> Profit t = Some x -> (lo <= x)%Q /\ (x <= hi)%Q).
Proof.
  intros H.
  destruct (aggregate_needs_profit _ _ _ H) as (hi & lo & Hhi & Hlo).
  destruct (aggregate_run trades total_weeks hi lo Hhi Hlo)
    as (t_hi & t_lo & i_hi & i_lo & Hthi & Hehi & Hfhi & Htlo & Helo & Hflo & Hrun).
  rewrite Hrun in H. injection H as <-.
  exists hi, lo, t_hi, t_lo, i_hi, i_lo. simpl.
  repeat (split; [done|]).
  intros t x Ht Hx.
  assert (Hin : Some x ∈ Profit <$> trades).
  { rewrite <- Hx. by apply list_elem_of_fmap_2. }
  pose proof (series_max_spec (Profit <$> trades)) as Hmax. rewrite Hhi in Hmax.
  pose proof (series_min_spec (Profit <$> trades)) as Hmin. rewrite Hlo in Hmin.
  split; [by apply Hmin | by apply Hmax].
Qed.

Lemma extrema_are_first_attained_witness :
  exists s hi lo t_hi t_lo,
    aggregate (frame_of_dicts sample_trades) 2 = ok s /\
    max_exit_profit s = Some (Some hi) /\
    min_exit_profit s = Some (Some lo) /\
    max_exit_profit_date s = Some (CTime (Exit_Date t_hi)) /\
    min_exit_profit_date s = Some (CTime (Exit_Date t_lo)) /\
    t_hi ∈ sample_trades /\ t_lo ∈ sample_trades.
Proof.
  let r := eval vm_compute in (aggregate (frame_of_dicts sample_trades) 2) in
  lazymatch r with
  | inr ?s =>
      assert (H : aggregate (frame_of_dicts sample_trades) 2 = ok s)
        by (vm_compute; reflexivity);
      destruct (extrema_are_first_attained _ _ _ H)
        as (hi & lo & t_hi & t_lo & i_hi & i_lo & Hmax & Hmin & Hthi & _
            & Hdhi & _ & Htlo & _ & Hdlo & _);
      exists s, hi, lo, t_hi, t_lo;
      split; [exact H|]; split; [exact Hmax|]; split; [exact Hmin|];
      split; [exact Hdhi|]; split; [exact Hdlo|];
      split; eapply list_elem_of_lookup_2; eassumption
  end.
Defined.

Lemma filter_fmap_length {A B} (f : A -> B) (P : B -> Prop)
    `{forall y, Decision (P y)} (l : list A) :
  length (filter P (f <$> l)) = length (filter (fun x => P (f x)) l).
Proof.
  induction l as [|a l IH]; [done|]. rewrite fmap_cons.
  destruct (decide (P (f a))).
  - rewrite !filter_cons_True by done. simpl. by rewrite IH.
  - rewrite !filter_cons_False by done. exact IH.
Qed.

Lemma win_rate_bounds (w n : Z) :
  0 <= w <= n -> 0 < n ->
  exists q, Float.of_Z w /# Float.of_Z n *# fl 100 = Some q /\
            (0 <= q)%Q /\ (q <= 100)%Q.
Proof.
  intros Hw Hn. unfold Float.of_Z, Float.div, Float.mul, Float.lift2. simpl.
  destruct (Qeq_bool (inject_Z n) 0) eqn:E.
  { apply Qeq_bool_iff in E. unfold Qeq in E. simpl in E. lia. }
  eexists. split; [reflexivity|].
  assert (Hn' : (0 < inject_Z n)%Q).
  { unfold Qlt. simpl. lia. }
  assert (H0 : (0 <= inject_Z w / inject_Z n)%Q).
  { apply Qle_shift_div_l; [done|]. rewrite Qmult_0_l.
    unfold Qle. simpl. lia. }
  assert (H1 : (inject_Z w / inject_Z n <= 1)%Q).
  { apply Qle_shift_div_r; [done|]. rewrite Qmult_1_l.
    unfold Qle. simpl. lia. }
  split; lra.
Qed.

(** X14: when the aggregation completes, the total is the number of
    trades and is positive; the winners are the trades whose profit is
    above zero, the losers all the others (break-even trades and trades
    with an undefined profit included); winners and losers add up to the
    total; and the win rate lies between 0 and 100. *)
Theorem counts_partition_the_trades trades total_weeks s :
  aggregate (frame_of_dicts trades) total_weeks = ok s ->
  total_trades s = Z.of_nat (length trades) /\
  0 < total_trades s /\
  winning_trades s
    = Z.of_nat (length (filter (fun t => (Profit t ># fl 0) = true) trades)) /\
  losing_trades s
    = Z.of_nat (length (filter (fun t => ~ (Profit t ># fl 0) = true) trades)) /\
  winning_trades s + losing_trades s = total_trades s /\
  exists q, win_rate s = Some q /\ (0 <= q)%Q /\ (q <= 100)%Q.
Proof.
  intros H.
  destruct (aggregate_needs_profit _ _ _ H) as (hi & lo & Hhi & Hlo).
  destruct (aggregate_run trades total_weeks hi lo Hhi Hlo)
    as (t_hi & t_lo & i_hi & i_lo & Hthi & _ & _ & _ & _ & _ & Hrun).
  rewrite Hrun in H. injection H as <-. simpl.
  rewrite (filter_fmap_length Profit (fun x => (x ># fl 0) = true)).
  pose proof (filter_app_complement (fun t => (Profit t ># fl 0) = true) trades)
    as Hperm.
  apply Permutation_length in Hperm. rewrite length_app in Hperm.
  assert (Hpos : (0 < length trades)%nat).
  { apply lookup_lt_Some in Hthi. lia. }
  split; [done|]. split; [lia|]. split; [done|]. split; [lia|]. split; [lia|].
  apply win_rate_bounds; lia.
Qed.

Lemma counts_partition_the_trades_witness :
  exists s,
    aggregate (frame_of_dicts sample_trades) 2 = ok s /\
    total_trades s = 2 /\ winning_trades s = 1 /\ losing_trades s = 1 /\
    exists q, win_rate s = Some q /\ (0 <= q)%Q /\ (q <= 100)%Q.
Proof.
  let r := eval vm_compute in (aggregate (frame_of_dicts sample_trades) 2) in
  lazymatch r with
  | inr ?s =>
      assert (H : aggregate (frame_of_dicts sample_trades) 2 = ok s)
        by (vm_compute; reflexivity);
      destruct (counts_partition_the_trades _ _ _ H)
        as (Ht & _ & Hw & Hl & _ & Hq);
      exists s; split; [exact H|]; split; [exact Ht|];
      split; [reflexivity|]; split; [reflexivity | exact Hq]
  end.
Defined.

(** ** The first two stages never raise on a table with closes *)

Lemma getitem_float_total df label :
  label ∈ columns df ->
  (forall r, r ∈ rows df -> exists x, getfloat r.2 label = ok x) ->
  exists xs, getitem_float df label = ok xs.
Proof.
  intros Hcol Hall. unfold getitem_float, getitem.
  rewrite bool_decide_eq_true_2 by done.
  induction (rows df) as [|r l IH]; simpl; [eexists; reflexivity|].
  destruct (Hall r) as (x & Hx); [apply list_elem_of_here|].
  unfold getfloat in Hx. apply bindR_ok in Hx as (c & Hc & Hx).
  destruct IH as (xs & Hxs).
  { intros r' Hr'. apply Hall. by apply list_elem_of_further. }
  apply bindR_ok in Hxs as (cs & Hcs & Hxs).
  rewrite Hc. simpl. rewrite Hcs. simpl. unfold ok in Hx. rewrite Hx. simpl.
  unfold ok in Hxs. rewrite Hxs. simpl. eexists. reflexivity.
Qed.

Lemma setitem_keeps_float df label values label' :
  label <> label' ->
  (forall r, r ∈ rows df -> exists x, getfloat r.2 label' = ok x) ->
  forall r, r ∈ rows (setitem df label values) ->
    exists x, getfloat r.2 label' = ok x.
Proof.
  intros Hne Hall r Hr. apply list_elem_of_lookup in Hr as [i Hi].
  apply setitem_lookup in Hi as (r0 & Hr0 & ->). simpl.
  rewrite getfloat_insert_ne by done. apply Hall.
  by eapply list_elem_of_lookup_2.
Qed.

Lemma setitem_float_column df label xs :
  forall r, r ∈ rows (setitem df label (CFloat <$> xs)) ->
    exists x, getfloat r.2 label = ok x.
Proof.
  intros r Hr. apply list_elem_of_lookup in Hr as [i Hi].
  apply setitem_lookup in Hi as (r0 & Hr0 & ->). simpl.
  rewrite list_lookup_fmap, getfloat_insert_float. eauto.
Qed.

Lemma annotate_total ta p bars :
  "Close" ∈ columns bars ->
  (forall r, r ∈ rows bars -> exists x, getfloat r.2 "Close" = ok x) ->
  exists annotated, annotate ta p bars = ok annotated.
Proof.
  intros Hcol Hclose. unfold annotate.
  destruct (getitem_float_total bars "Close" Hcol Hclose) as (c1 & ->). simpl.
  set (d1 := setitem bars "SMA" _).
  assert (Hcol1 : "Close" ∈ columns d1)
    by (by apply (proj2 (setitem_columns _ _ _))).
  assert (Hclose1 : forall r, r ∈ rows d1 -> exists x, getfloat r.2 "Close" = ok x)
    by (by apply setitem_keeps_float).
  destruct (getitem_float_total d1 "Close" Hcol1 Hclose1) as (c2 & ->). simpl.
  set (d2 := setitem d1 "HMA" _).
  assert (Hcol2 : "Close" ∈ columns d2)
    by (by apply (proj2 (setitem_columns _ _ _))).
  assert (Hclose2 : forall r, r ∈ rows d2 -> exists x, getfloat r.2 "Close" = ok x)
    by (by apply setitem_keeps_float).
  destruct (getitem_float_total d2 "Close" Hcol2 Hclose2) as (c3 & ->). simpl.
  set (d3 := setitem d2 "RSI" _).
  assert (Hcol3 : "RSI" ∈ columns d3) by exact (proj1 (setitem_columns _ _ _)).
  assert (Hrsi3 : forall r, r ∈ rows d3 -> exists x, getfloat r.2 "RSI" = ok x)
    by apply setitem_float_column.
  destruct (getitem_float_total d3 "RSI" Hcol3 Hrsi3) as (rsi & ->). simpl.
  set (d4 := setitem d3 "Previous_RSI" _).
  assert (Hcol4 : "RSI" ∈ columns d4)
    by (by apply (proj2 (setitem_columns _ _ _))).
  assert (Hrsi4 : forall r, r ∈ rows d4 -> exists x, getfloat r.2 "RSI" = ok x)
    by (by apply setitem_keeps_float).
  destruct (getitem_float_total d4 "RSI" Hcol4 Hrsi4) as (cur & ->). simpl.
  assert (Hcolp : "Previous_RSI" ∈ columns d4)
    by exact (proj1 (setitem_columns _ _ _)).
  assert (Hprev : forall r, r ∈ rows d4 ->
                    exists x, getfloat r.2 "Previous_RSI" = ok x)
    by apply setitem_float_column.
  destruct (getitem_float_total d4 "Previous_RSI" Hcolp Hprev) as (pri & ->).
  simpl. eexists. reflexivity.
Qed.

Lemma stage_partition_total st : exists st2, stage_partition st = ok st2.
Proof.
  unfold stage_partition, groupby.
  rewrite bool_decide_eq_true_2 by exact (proj1 (setitem_columns _ _ _)).
  rewrite (mapR_fmap _ (fun r => (week_start r.1, r))).
  - simpl. eexists. reflexivity.
  - intros r Hr. rewrite add_week_start_rows in Hr.
    apply list_elem_of_fmap in Hr as (r0 & -> & _). simpl.
    unfold time_key, getcell. rewrite lookup_insert_eq. reflexivity.
Qed.

Lemma insert_key_length k l : (length (insert_key k l) <= S (length l))%nat.
Proof.
  induction l as [|k' l IH]; simpl; [lia|].
  destruct (k <? k'); simpl; [lia|]. destruct (k =? k'); simpl; lia.
Qed.

Lemma sorted_keys_length ks : (length (sorted_keys ks) <= length ks)%nat.
Proof.
  unfold sorted_keys. induction ks as [|k ks IH]; simpl; [lia|].
  pose proof (insert_key_length k (foldr insert_key [] ks)). lia.
Qed.

(** X15: the indicator stage needs the column of closes and nothing
    else.  Without it the stage raises [KeyError]; with a numeric close on
    every bar the indicator stage and the partition stage both complete,
    keep the number of bars, and count at most one week per bar (none for
    an empty table).  The partition stage itself never raises. *)
Theorem first_stages_need_only_closes ta p bars :
  ("Close" ∉ columns bars ->
   stage_indicators ta p (downloaded bars) = raise (KeyError "Close")) /\
  ("Close" ∈ columns bars ->
   (forall r, r ∈ rows bars -> exists x, getfloat r.2 "Close" = ok x) ->
   exists st1 st2,
     stage_indicators ta p (downloaded bars) = ok st1 /\
     stage_partition st1 = ok st2 /\
     length (rows (data st2)) = length (rows bars) /\
     0 <= total_weeks st2 <= Z.of_nat (length (rows bars))) /\
  (forall st, exists st2, stage_partition st = ok st2).
Proof.
  split; [|split].
  - intros Hno. unfold stage_indicators, annotate, getitem_float, getitem. simpl.
    by rewrite bool_decide_eq_false_2.
  - intros Hcol Hclose.
    destruct (annotate_total ta p bars Hcol Hclose) as (annotated & Ha).
    assert (H1 : exists st1, stage_indicators ta p (downloaded bars) = ok st1).
    { unfold stage_indicators. simpl. rewrite Ha. simpl. eauto. }
    destruct H1 as (st1 & H1).
    destruct (stage_partition_total st1) as (st2 & H2).
    exists st1, st2. split; [done|]. split; [done|].
    pose proof (partition_groups _ _ H2) as Hg.
    assert (Hlen : length (rows (data st2)) = length (rows bars)).
    { apply stage_partition_inv in H2 as [-> _].
      rewrite add_week_start_rows, length_fmap.
      apply stage_indicators_inv in H1 as (annotated' & Ha' & ->). simpl in Ha'.
      unfold sort_index. simpl.
      rewrite (Permutation_length (sort_rows_perm _)).
      by destruct (annotate_preserved _ _ _ _ Ha'). }
    split; [done|].
    assert (Htw : total_weeks st2 = Z.of_nat (length (grouped st2))).
    { unfold stage_partition in H2. run_inv. reflexivity. }
    rewrite Htw, Hg, length_fmap.
    pose proof (sorted_keys_length
                  ((fun r : Timestamp * Series => week_start r.1)
                     <$> rows (data st2))) as Hk.
    rewrite length_fmap, Hlen in Hk. lia.
  - apply stage_partition_total.
Qed.

Lemma first_stages_need_only_closes_witness :
  exists st1 st2,
    stage_indicators warming_up script_params (downloaded two_bars) = ok st1 /\
    stage_partition st1 = ok st2 /\
    length (rows (data st2)) = length (rows two_bars) /\
    0 <= total_weeks st2 <= Z.of_nat (length (rows two_bars)).
Proof.
  apply (proj1 (proj2 (first_stages_need_only_closes
                         warming_up script_params two_bars))).
  - unfold two_bars, ohlc. simpl. rewrite !elem_of_cons. tauto.
  - intros r Hr. unfold two_bars, ohlc in Hr. simpl in Hr.
    rewrite !elem_of_cons in Hr.
    destruct Hr as [->|[->|Hr]]; [eexists; reflexivity..|].
    by apply elem_of_nil in Hr.
Defined.

(** ** The weekly theorems at concrete inputs *)



Lemma recorded_entry_is_first_passing_bar_witness :
  exists t i row open_price,
    week script_params gap_down_week [] midpoint
      = inr ([] ++ [t], midpoint_after 2) /\
    rows gap_down_week !! i = Some (Entry_Date t, row) /\
    getfloat row "Open" = ok open_price /\
    Entry_Price t
      = limit_price_of script_params open_price
          (slippage_of 0.01 (draws midpoint (pos midpoint + i)%nat)) /\
    weekday (Entry_Date t) ∈ allowed_days script_params.
Proof.
  let r := eval vm_compute in (week script_params gap_down_week [] midpoint) in
  lazymatch r with
  | inr ([?t], _) =>
      assert (Hrun : week script_params gap_down_week [] midpoint
                     = inr ([] ++ [t], midpoint_after 2))
        by (vm_compute; reflexivity);
      destruct (recorded_entry_is_first_passing_bar _ _ _ _ _ _ Hrun)
        as (i & row & o & Hi & _ & _ & Ho & Hp & _ & Hd);
      exists t, i, row, o; split; [exact Hrun|]; split; [exact Hi|];
      split; [exact Ho|]; split; [exact Hp | exact Hd]
  end.
Defined.

Lemma recorded_exit_is_take_profit_or_close_witness :
  exists t,
    week script_params scenario_B_week [] midpoint
      = inr ([] ++ [t], midpoint_after 6) /\
    ((exists k row high,
        rows scenario_B_week !! k = Some (Exit_Date t, row) /\
        getfloat row "High" = ok high /\
        (high >=# Exit_Price t) = true /\
        midpoint_after 6 = advance_by (S k) midpoint)
     \/
     (exists row close,
        last (rows scenario_B_week) = Some (Exit_Date t, row) /\
        getfloat row "Close" = ok close /\
        Exit_Price t
          = close +# fl (slippage_of (close_max_slippage script_params)
                           (draws midpoint
                              (pos midpoint + length (rows scenario_B_week))%nat)) /\
        midpoint_after 6
          = advance_by (S (length (rows scenario_B_week))) midpoint)).
Proof.
  let r := eval vm_compute in (week script_params scenario_B_week [] midpoint) in
  lazymatch r with
  | inr ([?t], _) =>
      assert (Hrun : week script_params scenario_B_week [] midpoint
                     = inr ([] ++ [t], midpoint_after 6))
        by (vm_compute; reflexivity);
      exists t; split; [exact Hrun|];
      exact (recorded_exit_is_take_profit_or_close _ _ _ _ _ _ Hrun)
  end.
Defined.

Lemma gap_down_week_sorted : Sorted Z.le (fst <$> rows gap_down_week).
Proof. repeat constructor. vm_compute. discriminate. Defined.

Lemma trade_dates_in_order_witness :
  exists t,
    week script_params gap_down_week [] midpoint
      = inr ([] ++ [t], midpoint_after 2) /\
    Entry_Date t <= Exit_Date t /\ 0 <= Days_in_Trade t.
Proof.
  let r := eval vm_compute in (week script_params gap_down_week [] midpoint) in
  lazymatch r with
  | inr ([?t], _) =>
      assert (Hrun : week script_params gap_down_week [] midpoint
                     = inr ([] ++ [t], midpoint_after 2))
        by (vm_compute; reflexivity);
      destruct (trade_dates_in_order _ _ _ _ _ _ gap_down_week_sorted Hrun)
        as (_ & _ & Hle & Hd);
      exists t; split; [exact Hrun|]; split; [exact Hle | exact Hd]
  end.
Defined.

Lemma trade_stays_within_its_week_witness :
  exists t,
    week (gates_off script_params) two_bars_week [] midpoint
      = inr ([] ++ [t], midpoint_after 2) /\
    in_week mon (Entry_Date t) /\ in_week mon (Exit_Date t) /\
    0 <= Days_in_Trade t <= 6.
Proof.
  assert (H1 : stage_indicators warming_up (gates_off script_params)
                 (downloaded two_bars) = ok two_bars_annotated)
    by (vm_compute; reflexivity).
  assert (H2 : stage_partition two_bars_annotated = ok two_bars_weeks)
    by (vm_compute; reflexivity).
  assert (Hk : (mon, two_bars_week) ∈ grouped two_bars_weeks)
    by (apply (list_elem_of_lookup_2 _ 0%nat); vm_compute; reflexivity).
  let r := eval vm_compute in
      (week (gates_off script_params) two_bars_week [] midpoint) in
  lazymatch r with
  | inr ([?t], _) =>
      assert (Hrun : week (gates_off script_params) two_bars_week [] midpoint
                     = inr ([] ++ [t], midpoint_after 2))
        by (vm_compute; reflexivity);
      destruct (trade_stays_within_its_week _ _ _ _ _ _ _ _ _ _ _ H1 H2 Hk Hrun)
        as (Hi & Hx & _ & Hd);
      exists t; split; [exact Hrun|]; split; [exact Hi|];
      split; [exact Hx | exact Hd]
  end.
Defined.



